(** * HDB BTO application system: the application lifecycle of [main.py]

    A shallow embedding of the classes of [src/main.py] that carry the
    application, withdrawal, booking and officer-registration rules, and
    the properties of the specification proved (or refuted) on it.

    Python objects are shared and mutated in place (an [Application] is
    reachable from its applicant's list, from the controller's list and
    from the manager's menu; a [BTOProject] from every application made
    to it).  The embedding therefore keeps one store per class, a list
    indexed by object identity, and every attribute that holds an object
    holds its index.  Objects are never freed, so allocation appends.

    Python [int] is unbounded: ages, unit counts, prices and slots are
    [Z].  A [dict] keyed by flat-type label is a [gmap string _].  A
    method either prints one line and returns, or raises [KeyError] at
    an unguarded dictionary subscript. *)

From Stdlib Require Import ZArith Lia Ascii String.
From stdpp Require Import base decidable option list strings gmap.

Local Open Scope string_scope.

(** ** Data model *)

(** The inner dictionary [{"units": u, "price": p}] of [flatTypes]. *)
Record FlatInfo := mkFlatInfo { units : Z; price : Z }.

(** class BTOProject (dates, which only [main] reads, are left out). *)
Record BTOProject := mkProject {
  projectID : Z;
  projectName : string;
  neighborhood : string;
  flatTypes : gmap string FlatInfo;
  manager : option nat;          (* an HDBManager object, or None *)
  officers : list nat;           (* HDBOfficer objects *)
  visibility : bool;
  officerSlot : Z
}.

(** class Application.  [app_BTOProject] is the attribute [BTOProject]. *)
Record Application := mkApplication {
  applicant : nat;
  app_BTOProject : nat;
  applicationStatus : string;
  chosen_flat_type : string;
  requested_withdrawal : bool
}.

(** The attributes HDBOfficer adds to Applicant. *)
Record OfficerPart := mkOfficerPart {
  handling_project : option nat;
  registration_status : option string;
  registered_project : option nat
}.

(** class Applicant(User); an HDBOfficer is an Applicant whose [officer]
    part is present. *)
Record Applicant := mkApplicant {
  userID : string;
  age : Z;
  marital_status : string;
  name : string;
  applications : list nat;       (* Application objects *)
  officer : option OfficerPart
}.

(** class HDBManager(User). *)
Record HDBManager := mkManager {
  manager_userID : string;
  manager_name : string;
  projects_handling : list nat
}.

(** The object stores, the two controllers and the class attribute
    [BTOProject.project_counter]. *)
Record World := mkWorld {
  users : list Applicant;
  managers : list HDBManager;
  projects : list BTOProject;
  apps : list Application;
  controller_applications : list nat;   (* ApplicationController.applications *)
  controller_projects : list nat;       (* ProjectController.projects *)
  project_counter : Z
}.

Definition with_users (w : World) (us : list Applicant) : World :=
  mkWorld us (managers w) (projects w) (apps w)
          (controller_applications w) (controller_projects w) (project_counter w).

Definition with_projects (w : World) (ps : list BTOProject) : World :=
  mkWorld (users w) (managers w) ps (apps w)
          (controller_applications w) (controller_projects w) (project_counter w).

Definition with_apps (w : World) (l : list Application) : World :=
  mkWorld (users w) (managers w) (projects w) l
          (controller_applications w) (controller_projects w) (project_counter w).

(** The line a method prints before it returns. *)
Inductive Msg :=
  (* Applicant.applyForProject *)
  | AlreadyActive        (* You already have an active application. Cannot apply again. *)
  | SingleUnder35        (* Single applicants must be at least 35 years old. *)
  | SingleOnly2Room      (* Single (>=35) can ONLY apply for 2-Room. *)
  | MarriedUnder21       (* Married applicants must be at least 21 years old. *)
  | MarriedOnly2or3      (* Married applicants can apply for 2-Room or 3-Room only. *)
  | NoAvailableUnits     (* No available units for {flat_type} in project ... *)
  | Submitted            (* Application for ... submitted (Pending). *)
  (* Applicant.requestWithdrawal *)
  | NoApplications       (* No applications to withdraw. *)
  | CannotWithdraw       (* This application is either unsuccessful or booked; cannot withdraw. *)
  | WithdrawalRequested  (* Withdrawal request submitted. Awaiting Manager's approval. *)
  | InvalidChoice        (* Invalid choice. *)
  | InvalidInput         (* Invalid input. *)
  (* HDBOfficer *)
  | AlreadyHandling      (* You are already handling another project. Cannot register. *)
  | AlreadyApplied       (* You have already applied for this project as an Applicant. ... *)
  | RegistrationSubmitted(* Registration to handle project ... submitted (Pending). *)
  | NotHandling          (* You are not handling this project. *)
  | AvailabilityUpdated  (* Updated availability for {flat_type} in project ... *)
  (* HDBManager *)
  | NotManager           (* You are not the manager of this project. *)
  | NotPending           (* This application is not Pending. Cannot approve/reject. *)
  | Approved             (* Application for ... approved. *)
  | NotEnoughUnits       (* Not enough units left for that flat type! Cannot approve. *)
  | Rejected             (* Application for ... rejected. *)
  | NoWithdrawalRequested(* No withdrawal requested. *)
  | WithdrawalApproved   (* Withdrawal approved. Application set to 'Unsuccessful'. *)
  | CannotBeWithdrawn    (* Application cannot be withdrawn from this state. *)
  | WithdrawalRejected   (* Withdrawal request rejected. *)
  | NoRegistration       (* Officer has no project registration pending. *)
  | RegistrationNotPending (* Officer's registration is not pending. *)
  | NoOfficerSlots       (* No more officer slots available. *)
  | OfficerApproved      (* Officer ... approved for ... *)
  | OfficerRejected      (* Officer ... rejected for ... *)
  | ProjectUpdated       (* Project ... updated successfully. *)
  | VisibilitySet        (* Project ... visibility set to ... *)
  | ProjectCreated.      (* Project ... created. *)

(** How a method call ends.  [NoObject] stands for a call the program
    cannot make: an index that names no object, or an officer method on
    a plain Applicant. *)
Inductive Result :=
  | Returned (w : World) (m : Msg)
  | KeyError
  | NoObject.

(** ** str.lower, on the ASCII letters *)

Definition lower_ascii (c : ascii) : ascii :=
  let n := nat_of_ascii c in
  if (65 <=? n)%nat && (n <=? 90)%nat then ascii_of_nat (n + 32) else c.

Fixpoint lower (s : string) : string :=
  match s with
  | EmptyString => EmptyString
  | String c s' => String (lower_ascii c) (lower s')
  end.

(** ** class BTOProject *)

(** BTOProject.__init__: the next identifier and an empty officer list. *)
Definition BTOProject_init (counter : Z) (project_name nbhd : string)
    (flat_types : gmap string FlatInfo) (mgr : option nat) (slot : Z) : BTOProject :=
  mkProject counter project_name nbhd flat_types mgr [] true slot.

Definition set_flatTypes (p : BTOProject) (ft : gmap string FlatInfo) : BTOProject :=
  mkProject (projectID p) (projectName p) (neighborhood p) ft
            (manager p) (officers p) (visibility p) (officerSlot p).

Definition set_officers (p : BTOProject) (l : list nat) : BTOProject :=
  mkProject (projectID p) (projectName p) (neighborhood p) (flatTypes p)
            (manager p) l (visibility p) (officerSlot p).

(** BTOProject.reduceUnits *)
Definition reduceUnits (p : BTOProject) (flat_type : string) (num : Z) : BTOProject :=
  match flatTypes p !! flat_type with
  | Some info =>
      let u := (units info - num)%Z in
      let u' := if decide (u < 0)%Z then 0%Z else u in
      set_flatTypes p (<[flat_type := mkFlatInfo u' (price info)]> (flatTypes p))
  | None => p
  end.

(** BTOProject.registerHDBOfficer (no caller in the program). *)
Definition registerHDBOfficer (p : BTOProject) (off : nat) : BTOProject :=
  if decide (Z.of_nat (length (officers p)) < officerSlot p)%Z
  then set_officers p (officers p ++ [off]) else p.

(** ** class Application *)

Definition Application_init (who project : nat) (flat_type : string) : Application :=
  mkApplication who project "Pending" flat_type false.

Definition updateStatus (a : Application) (new_status : string) : Application :=
  mkApplication (applicant a) (app_BTOProject a) new_status
                (chosen_flat_type a) (requested_withdrawal a).

Definition set_requested_withdrawal (a : Application) (b : bool) : Application :=
  mkApplication (applicant a) (app_BTOProject a) (applicationStatus a)
                (chosen_flat_type a) b.

(** ** class Applicant *)

Definition set_applications (u : Applicant) (l : list nat) : Applicant :=
  mkApplicant (userID u) (age u) (marital_status u) (name u) l (officer u).

Definition set_officer (u : Applicant) (o : OfficerPart) : Applicant :=
  mkApplicant (userID u) (age u) (marital_status u) (name u) (applications u) (Some o).

(** [self.marital_status.lower() == "single"] *)
Definition is_single (u : Applicant) : bool :=
  bool_decide (lower (marital_status u) = "single").

(** The status test of the list comprehension that opens applyForProject:
    [app.applicationStatus in ["Pending","Successful"]]. *)
Definition is_active (w : World) (a : nat) : bool :=
  match apps w !! a with
  | Some app => bool_decide (applicationStatus app ∈ ["Pending"; "Successful"])
  | None => false
  end.

(** The age, marital-status and flat-type tests of applyForProject
    (source lines 50-63): the line printed when one fails. *)
Definition flat_type_check (u : Applicant) (flat_type : string) : option Msg :=
  if is_single u then
    if decide (age u < 35)%Z then Some SingleUnder35
    else if decide (flat_type ≠ "2-Room") then Some SingleOnly2Room
    else None
  else
    if decide (age u < 21)%Z then Some MarriedUnder21
    else if decide (flat_type ∉ ["2-Room"; "3-Room"]) then Some MarriedOnly2or3
    else None.

(** Applicant.applyForProject.  [application_controller] is the one
    controller of the program, kept in the world. *)
Definition applyForProject (w : World) (self project : nat) (flat_type : string) : Result :=
  match users w !! self, projects w !! project with
  | Some u, Some p =>
      let active_app := filter (λ a, is_active w a = true) (applications u) in
      if decide (active_app ≠ []) then Returned w AlreadyActive
      else match flat_type_check u flat_type with
      | Some m => Returned w m
      | None =>
          match flatTypes p !! flat_type with
          | None => KeyError
          | Some info =>
              if decide (units info <= 0)%Z then Returned w NoAvailableUnits
              else
                let a := length (apps w) in
                let app := Application_init self project flat_type in
                Returned
                  (mkWorld (<[self := set_applications u (applications u ++ [a])]> (users w))
                           (managers w) (projects w) (apps w ++ [app])
                           (controller_applications w ++ [a])
                           (controller_projects w) (project_counter w))
                  Submitted
          end
      end
  | _, _ => NoObject
  end.

(** Applicant.requestWithdrawal.  [choice] is what [int(choice)] gave,
    [None] when it raised ValueError. *)
Definition requestWithdrawal (w : World) (self : nat) (choice : option Z) : Result :=
  match users w !! self with
  | None => NoObject
  | Some u =>
      if decide (applications u = []) then Returned w NoApplications
      else match choice with
      | None => Returned w InvalidInput
      | Some c =>
          let choice_idx := (c - 1)%Z in
          if decide (0 <= choice_idx < Z.of_nat (length (applications u)))%Z then
            match applications u !! Z.to_nat choice_idx with
            | None => NoObject
            | Some a =>
                match apps w !! a with
                | None => NoObject
                | Some app_to_withdraw =>
                    if decide (applicationStatus app_to_withdraw ∈ ["Unsuccessful"; "Booked"])
                    then Returned w CannotWithdraw
                    else Returned
                           (with_apps w (<[a := set_requested_withdrawal app_to_withdraw true]> (apps w)))
                           WithdrawalRequested
                end
            end
          else Returned w InvalidChoice
      end
  end.

(** The flat types Applicant.viewProjects filters by (source lines
    154-165); [None] on the two early returns, which list no project. *)
Definition can_apply_types (u : Applicant) : option (list string) :=
  if is_single u && bool_decide (age u < 35)%Z then None
  else if negb (is_single u) && bool_decide (age u < 21)%Z then None
  else if is_single u then Some ["2-Room"] else Some ["2-Room"; "3-Room"].

(** The inner loop of viewProjects over [can_apply_types]. *)
Definition has_available_type (p : BTOProject) (types : list string) : bool :=
  existsb (λ t, match flatTypes p !! t with
                | Some info => bool_decide (units info > 0)%Z
                | None => false
                end) types.

(** Applicant.viewProjects: the projects it lists. *)
Definition viewProjects (w : World) (u : Applicant) (ps : list nat) : list nat :=
  match can_apply_types u with
  | None => []
  | Some types =>
      filter (λ i, match projects w !! i with
                   | Some p => visibility p && has_available_type p types
                   | None => false
                   end = true) ps
  end.

(** ** class HDBOfficer *)

(** HDBOfficer.registerToProject *)
Definition registerToProject (w : World) (self project : nat) : Result :=
  match users w !! self with
  | Some u =>
      match officer u with
      | None => NoObject
      | Some o =>
          if decide (is_Some (handling_project o)) then Returned w AlreadyHandling
          else if existsb (λ a, match apps w !! a with
                                | Some app => bool_decide (app_BTOProject app = project)
                                | None => false
                                end) (applications u)
          then Returned w AlreadyApplied
          else Returned
                 (with_users w (<[self := set_officer u
                      (mkOfficerPart (handling_project o) (Some "Pending") (Some project))]> (users w)))
                 RegistrationSubmitted
      end
  | None => NoObject
  end.

(** HDBOfficer.updateFlatAvailability *)
Definition updateFlatAvailability (w : World) (self project : nat)
    (flat_type : string) (number_booked : Z) : Result :=
  match users w !! self, projects w !! project with
  | Some u, Some p =>
      match officer u with
      | None => NoObject
      | Some o =>
          if decide (handling_project o ≠ Some project) then Returned w NotHandling
          else Returned
                 (with_projects w (<[project := reduceUnits p flat_type number_booked]> (projects w)))
                 AvailabilityUpdated
      end
  | _, _ => NoObject
  end.

(** ** class HDBManager *)

Definition set_projectName (p : BTOProject) (s : string) : BTOProject :=
  mkProject (projectID p) s (neighborhood p) (flatTypes p)
            (manager p) (officers p) (visibility p) (officerSlot p).

Definition set_neighborhood (p : BTOProject) (s : string) : BTOProject :=
  mkProject (projectID p) (projectName p) s (flatTypes p)
            (manager p) (officers p) (visibility p) (officerSlot p).

Definition set_visibility (p : BTOProject) (b : bool) : BTOProject :=
  mkProject (projectID p) (projectName p) (neighborhood p) (flatTypes p)
            (manager p) (officers p) b (officerSlot p).

(** HDBManager.approveOrRejectApplication *)
Definition approveOrRejectApplication (w : World) (self application : nat)
    (decision : bool) : Result :=
  match apps w !! application with
  | None => NoObject
  | Some app =>
      match projects w !! app_BTOProject app with
      | None => NoObject
      | Some p =>
          if decide (manager p ≠ Some self) then Returned w NotManager
          else if decide (applicationStatus app ≠ "Pending") then Returned w NotPending
          else if decision then
            let ft := chosen_flat_type app in
            match flatTypes p !! ft with
            | None => KeyError
            | Some info =>
                if decide (units info > 0)%Z
                then Returned
                       (with_apps w (<[application := updateStatus app "Successful"]> (apps w)))
                       Approved
                else Returned w NotEnoughUnits
            end
          else Returned
                 (with_apps w (<[application := updateStatus app "Unsuccessful"]> (apps w)))
                 Rejected
      end
  end.

(** HDBManager.approveOrRejectWithdrawal *)
Definition approveOrRejectWithdrawal (w : World) (self application : nat)
    (decision : bool) : Result :=
  match apps w !! application with
  | None => NoObject
  | Some app =>
      match projects w !! app_BTOProject app with
      | None => NoObject
      | Some p =>
          if decide (manager p ≠ Some self) then Returned w NotManager
          else if negb (requested_withdrawal app) then Returned w NoWithdrawalRequested
          else if decision then
            if decide (applicationStatus app ∈ ["Pending"; "Successful"])
            then Returned
                   (with_apps w (<[application :=
                        set_requested_withdrawal (updateStatus app "Unsuccessful") false]> (apps w)))
                   WithdrawalApproved
            else Returned w CannotBeWithdrawn
          else Returned
                 (with_apps w (<[application := set_requested_withdrawal app false]> (apps w)))
                 WithdrawalRejected
      end
  end.

(** HDBManager.approveOrRejectHDBOfficerRegistration *)
Definition approveOrRejectHDBOfficerRegistration (w : World) (self off : nat)
    (decision : bool) : Result :=
  match users w !! off with
  | None => NoObject
  | Some u =>
      match officer u with
      | None => NoObject
      | Some o =>
          match registered_project o with
          | None => Returned w NoRegistration
          | Some project =>
              match projects w !! project with
              | None => NoObject
              | Some p =>
                  if decide (manager p ≠ Some self) then Returned w NotManager
                  else if decide (registration_status o ≠ Some "Pending")
                  then Returned w RegistrationNotPending
                  else if decision then
                    if decide (Z.of_nat (length (officers p)) >= officerSlot p)%Z
                    then Returned w NoOfficerSlots
                    else Returned
                           (mkWorld
                              (<[off := set_officer u
                                   (mkOfficerPart (Some project) (Some "Approved")
                                                  (registered_project o))]> (users w))
                              (managers w)
                              (<[project := set_officers p (officers p ++ [off])]> (projects w))
                              (apps w) (controller_applications w)
                              (controller_projects w) (project_counter w))
                           OfficerApproved
                  else Returned
                         (with_users w (<[off := set_officer u
                              (mkOfficerPart (handling_project o) (Some "Rejected")
                                             (registered_project o))]> (users w)))
                         OfficerRejected
              end
          end
      end
  end.

(** Truth value of an optional string argument ([if new_name:]). *)
Definition truthy (s : option string) : option string :=
  match s with
  | Some "" => None
  | _ => s
  end.

(** HDBManager.editBTOProject; a falsy argument leaves its attribute as
    it is. *)
Definition editBTOProject (w : World) (self project : nat)
    (new_name new_neighborhood : option string)
    (new_flat_types : option (gmap string FlatInfo)) : Result :=
  match projects w !! project with
  | None => NoObject
  | Some p =>
      if decide (manager p ≠ Some self) then Returned w NotManager
      else
        let p1 := match truthy new_name with Some s => set_projectName p s | None => p end in
        let p2 := match truthy new_neighborhood with
                  | Some s => set_neighborhood p1 s | None => p1 end in
        let p3 := match new_flat_types with
                  | Some ft => if decide (ft = ∅) then p2 else set_flatTypes p2 ft
                  | None => p2 end in
        Returned (with_projects w (<[project := p3]> (projects w))) ProjectUpdated
  end.

(** HDBManager.toggleProjectVisibility *)
Definition toggleProjectVisibility (w : World) (self project : nat)
    (isVisible : bool) : Result :=
  match projects w !! project with
  | None => NoObject
  | Some p =>
      if decide (manager p ≠ Some self) then Returned w NotManager
      else Returned (with_projects w (<[project := set_visibility p isVisible]> (projects w)))
                    VisibilitySet
  end.

(** HDBManager.createBTOProject: the new object is stored and its index
    returned; the class counter advances. *)
Definition createBTOProject (w : World) (self : nat) (pname nbhd : string)
    (flat_types : gmap string FlatInfo) (slot : Z) : World * nat :=
  let p := BTOProject_init (project_counter w) pname nbhd flat_types (Some self) slot in
  (mkWorld (users w) (managers w) (projects w ++ [p]) (apps w)
           (controller_applications w) (controller_projects w)
           (project_counter w + 1)%Z,
   length (projects w)).

Definition set_projects_handling (m : HDBManager) (l : list nat) : HDBManager :=
  mkManager (manager_userID m) (manager_name m) l.

(** Choice 2 of the manager menu of [main]: the dictionary it builds,
    createBTOProject, ProjectController.addProject and the append to
    [projects_handling].  The numbers are what [int] parsed. *)
Definition menu_createBTOProject (w : World) (self : nat) (pname nbhd : string)
    (t1u t1p t2u t2p s : Z) : Result :=
  match managers w !! self with
  | None => NoObject
  | Some m =>
      let ft : gmap string FlatInfo :=
        <["3-Room" := mkFlatInfo t2u t2p]> (<["2-Room" := mkFlatInfo t1u t1p]> ∅) in
      let '(w1, new_p) := createBTOProject w self pname nbhd ft s in
      Returned
        (mkWorld (users w1)
                 (<[self := set_projects_handling m (projects_handling m ++ [new_p])]> (managers w1))
                 (projects w1) (apps w1) (controller_applications w1)
                 (controller_projects w1 ++ [new_p]) (project_counter w1))
        ProjectCreated
  end.

(** ** Sequences of operations *)

(** The calls the menus of [main] make on the objects.  [main] passes
    [None] for [new_flat_types] of editBTOProject, and so does
    [EditBTOProject]. *)
Inductive Op :=
  | ApplyForProject (self project : nat) (flat_type : string)
  | RequestWithdrawal (self : nat) (choice : option Z)
  | RegisterToProject (self project : nat)
  | UpdateFlatAvailability (self project : nat) (flat_type : string) (number_booked : Z)
  | ApproveOrRejectApplication (self application : nat) (decision : bool)
  | ApproveOrRejectWithdrawal (self application : nat) (decision : bool)
  | ApproveOrRejectHDBOfficerRegistration (self off : nat) (decision : bool)
  | EditBTOProject (self project : nat) (new_name new_neighborhood : option string)
  | ToggleProjectVisibility (self project : nat) (isVisible : bool)
  | CreateBTOProject (self : nat) (pname nbhd : string) (t1u t1p t2u t2p s : Z).

Definition exec (w : World) (op : Op) : Result :=
  match op with
  | ApplyForProject self project ft => applyForProject w self project ft
  | RequestWithdrawal self choice => requestWithdrawal w self choice
  | RegisterToProject self project => registerToProject w self project
  | UpdateFlatAvailability self project ft n => updateFlatAvailability w self project ft n
  | ApproveOrRejectApplication self a d => approveOrRejectApplication w self a d
  | ApproveOrRejectWithdrawal self a d => approveOrRejectWithdrawal w self a d
  | ApproveOrRejectHDBOfficerRegistration self o d =>
      approveOrRejectHDBOfficerRegistration w self o d
  | EditBTOProject self project n1 n2 => editBTOProject w self project n1 n2 None
  | ToggleProjectVisibility self project b => toggleProjectVisibility w self project b
  | CreateBTOProject self pname nbhd t1u t1p t2u t2p s =>
      menu_createBTOProject w self pname nbhd t1u t1p t2u t2p s
  end.

(** The world after a call.  Both subscripts that can raise KeyError
    stand before every assignment of their method, so an exception
    leaves the world as it was (the manager menu catches it and prints
    "Invalid input."; in the applicant menu it ends the program). *)
Definition step (w : World) (op : Op) : World :=
  match exec w op with
  | Returned w' _ => w'
  | KeyError | NoObject => w
  end.

Definition run (w : World) (ops : list Op) : World := fold_left step ops w.

(** ** Loading the initial objects *)

(** A row of ApplicantList.csv, ManagerList.csv or OfficerList.csv as
    csv.DictReader and [int] give it (the password is left out). *)
Record UserRow := mkUserRow {
  row_Name : string;
  row_NRIC : string;
  row_Age : Z;
  row_Marital_Status : string
}.

(** A row of ProjectList.csv, its numbers parsed (the two dates are left
    out). *)
Record ProjectRow := mkProjectRow {
  row_Project_Name : string;
  row_Neighborhood : string;
  row_Type_1 : string;
  row_units_1 : Z;
  row_price_1 : Z;
  row_Type_2 : string;
  row_units_2 : Z;
  row_price_2 : Z;
  row_Manager : string;
  row_Officer_Slot : Z;
  row_Officer : string
}.

Definition load_applicants (rows : list UserRow) : list Applicant :=
  map (λ r, mkApplicant (row_NRIC r) (row_Age r) (row_Marital_Status r) (row_Name r)
                        [] None) rows.

Definition load_managers (rows : list UserRow) : list HDBManager :=
  map (λ r, mkManager (row_NRIC r) (row_Name r) []) rows.

Definition load_officers (rows : list UserRow) : list Applicant :=
  map (λ r, mkApplicant (row_NRIC r) (row_Age r) (row_Marital_Status r) (row_Name r)
                        [] (Some (mkOfficerPart None None None))) rows.

(** str.split(",") *)
Fixpoint split_comma (s : string) : list string :=
  match s with
  | EmptyString => [EmptyString]
  | String c s' =>
      if Ascii.eqb c "," then EmptyString :: split_comma s'
      else match split_comma s' with
           | x :: xs => String c x :: xs
           | [] => [String c EmptyString]
           end
  end.

(** str.isspace on the ASCII characters: tab to carriage return, the
    four separators and the space. *)
Definition is_space (c : ascii) : bool :=
  let n := nat_of_ascii c in
  ((9 <=? n)%nat && (n <=? 13)%nat) || ((28 <=? n)%nat && (n <=? 32)%nat).

Fixpoint lstrip (s : string) : string :=
  match s with
  | String c s' => if is_space c then lstrip s' else s
  | EmptyString => EmptyString
  end.

Fixpoint rstrip (s : string) : string :=
  match s with
  | EmptyString => EmptyString
  | String c s' =>
      match rstrip s' with
      | EmptyString => if is_space c then EmptyString else String c EmptyString
      | r => String c r
      end
  end.

(** str.strip() *)
Definition strip (s : string) : string := rstrip (lstrip s).

(** The three statements of load_projects for an officer the row names:
    append to the project's list, set [handling_project] and the
    registration status.  No test of the slot capacity is made. *)
Definition attach_officer (w : World) (new_project off : nat) : World :=
  match users w !! off, projects w !! new_project with
  | Some u, Some p =>
      mkWorld (<[off := set_officer u
                   (mkOfficerPart (Some new_project) (Some "Approved")
                      (match officer u with
                       | Some o => registered_project o
                       | None => None
                       end))]> (users w))
              (managers w)
              (<[new_project := set_officers p (officers p ++ [off])]> (projects w))
              (apps w) (controller_applications w) (controller_projects w)
              (project_counter w)
  | _, _ => w
  end.

(** The body of the loop of load_projects for one row; [officer_list]
    holds the officers' indices. *)
Definition load_project_row (officer_list : list nat) (w : World) (row : ProjectRow)
    : World :=
  let manager_obj :=
    fst <$> list_find (λ m, manager_name m = row_Manager row ∨
                            manager_userID m = row_Manager row) (managers w) in
  let ft_dict : gmap string FlatInfo :=
    <[row_Type_2 row := mkFlatInfo (row_units_2 row) (row_price_2 row)]>
      (<[row_Type_1 row := mkFlatInfo (row_units_1 row) (row_price_1 row)]> ∅) in
  let new_project := length (projects w) in
  let w1 :=
    mkWorld (users w) (managers w)
            (projects w ++ [BTOProject_init (project_counter w) (row_Project_Name row)
                              (row_Neighborhood row) ft_dict manager_obj
                              (row_Officer_Slot row)])
            (apps w) (controller_applications w) (controller_projects w)
            (project_counter w + 1)%Z in
  if decide (strip (row_Officer row) = "") then w1
  else
    let off_names := map strip (split_comma (row_Officer row)) in
    foldl (λ w2 oname,
             foldl (λ w3 off,
                      match users w3 !! off with
                      | Some u => if decide (name u = oname ∨ userID u = oname)
                                  then attach_officer w3 new_project off else w3
                      | None => w3
                      end) w2 officer_list)
          w1 off_names.

Definition load_projects (officer_list : list nat) (w : World) (rows : list ProjectRow)
    : World :=
  foldl (load_project_row officer_list) w rows.

(** The lines of [main] before the menu loop: the four loads, then
    every project is added to the controller and to the list of its
    manager. *)
Definition main_init (applicant_rows manager_rows officer_rows : list UserRow)
    (project_rows : list ProjectRow) : World :=
  let applicants := load_applicants applicant_rows in
  let officer_objs := load_officers officer_rows in
  let officer_list := seq (length applicants) (length officer_objs) in
  let w0 := mkWorld (applicants ++ officer_objs) (load_managers manager_rows)
                    [] [] [] [] 1 in
  let w1 := load_projects officer_list w0 project_rows in
  let loaded := seq 0 (length (projects w1)) in
  let add_handling (ms : list HDBManager) (i : nat) :=
    match projects w1 !! i with
    | Some p =>
        match manager p with
        | Some m =>
            match ms !! m with
            | Some mo =>
                if decide (i ∈ projects_handling mo) then ms
                else <[m := set_projects_handling mo (projects_handling mo ++ [i])]> ms
            | None => ms
            end
        | None => ms
        end
    | None => ms
    end in
  mkWorld (users w1) (foldl add_handling (managers w1) loaded) (projects w1) (apps w1)
          (controller_applications w1) loaded (project_counter w1).

(** ** Reading and writing the stores *)

(** [application.applicationStatus] and [application.requested_withdrawal]
    of the object at an index. *)
Definition status_of (w : World) (a : nat) : option string :=
  applicationStatus <$> apps w !! a.

Definition flag_of (w : World) (a : nat) : option bool :=
  requested_withdrawal <$> apps w !! a.

(** [project.flatTypes[ft]["units"]], when both subscripts exist. *)
Definition units_of (w : World) (project : nat) (ft : string) : option Z :=
  p ← projects w !! project; units <$> flatTypes p !! ft.

(** The world in which the object [application], read as [app], has had
    [updateStatus(s)] called on it. *)
Definition store_status (w : World) (application : nat) (app : Application)
    (s : string) : World :=
  with_apps w (<[application := updateStatus app s]> (apps w)).

(** The world in which [application], read as [app], has had its
    withdrawal flag assigned. *)
Definition store_flag (w : World) (application : nat) (app : Application)
    (b : bool) : World :=
  with_apps w (<[application := set_requested_withdrawal app b]> (apps w)).

(** The world applyForProject leaves when it succeeds: a new Pending
    Application at the next index, appended to the controller's list and
    to the applicant's. *)
Definition world_after_apply (w : World) (self project : nat) (flat_type : string)
    (u : Applicant) : World :=
  mkWorld (<[self := set_applications u (applications u ++ [length (apps w)])]> (users w))
          (managers w) (projects w)
          (apps w ++ [mkApplication self project "Pending" flat_type false])
          (controller_applications w ++ [length (apps w)])
          (controller_projects w) (project_counter w).

(** The world approveOrRejectHDBOfficerRegistration leaves when it
    approves officer [off], read as [u] with officer part [o], for the
    project [project], read as [p]. *)
Definition world_after_officer_approval (w : World) (off project : nat)
    (u : Applicant) (o : OfficerPart) (p : BTOProject) : World :=
  mkWorld (<[off := set_officer u
               (mkOfficerPart (Some project) (Some "Approved") (registered_project o))]>
             (users w))
          (managers w)
          (<[project := set_officers p (officers p ++ [off])%list]> (projects w))
          (apps w) (controller_applications w) (controller_projects w)
          (project_counter w).

(** ** The properties the specification states *)

(** [u] holds an application whose status is Pending or Successful. *)
Definition has_active (w : World) (u : Applicant) : Prop :=
  ∃ a, a ∈ applications u ∧
       (status_of w a = Some "Pending" ∨ status_of w a = Some "Successful").

(** The edges of the application state machine of the specification. *)
Inductive transition : string → string → Prop :=
  | Pending_Successful : transition "Pending" "Successful"
  | Pending_Unsuccessful : transition "Pending" "Unsuccessful"
  | Successful_Unsuccessful : transition "Successful" "Unsuccessful"
  | Successful_Booked : transition "Successful" "Booked".

(** The status changes the program has a statement for: the two calls
    of updateStatus in approveOrRejectApplication and the one in
    approveOrRejectWithdrawal. *)
Inductive performed : string → string → Prop :=
  | approve_application : performed "Pending" "Successful"
  | reject_application : performed "Pending" "Unsuccessful"
  | approve_withdrawal_Pending : performed "Pending" "Unsuccessful"
  | approve_withdrawal_Successful : performed "Successful" "Unsuccessful".

(** [len(project.officers) <= project.officerSlot] *)
Definition within_slot (p : BTOProject) : Prop :=
  (Z.of_nat (length (officers p)) <= officerSlot p)%Z.

Definition officers_within_slot (w : World) : Prop :=
  ∀ i p, projects w !! i = Some p → within_slot p.

(** C9, first sentence, as the specification states it: in every state
    of the program, from the loaded objects on and through every
    sequence of operations, every project has at most as many officers
    as its slot capacity. *)
Definition officers_never_exceed_slot : Prop :=
  ∀ (applicant_rows manager_rows officer_rows : list UserRow)
    (project_rows : list ProjectRow) (ops : list Op),
    officers_within_slot
      (run (main_init applicant_rows manager_rows officer_rows project_rows) ops).

(** The capacity the menu gives a project it creates is not negative. *)
Definition creates_within_slot (op : Op) : Prop :=
  match op with
  | CreateBTOProject _ _ _ _ _ _ _ s => (0 <= s)%Z
  | _ => True
  end.

(** C6 as the specification states it: the officer of the project books
    one unit for a Successful application whose flat type has units
    left, and the application becomes Booked while the unit count goes
    down by one. *)
Definition booking_stores_Booked : Prop :=
  ∀ (w : World) (self project a : nat) (u : Applicant) (o : OfficerPart)
    (app : Application) (n : Z),
    users w !! self = Some u → officer u = Some o →
    handling_project o = Some project →
    apps w !! a = Some app → app_BTOProject app = project →
    applicationStatus app = "Successful" →
    units_of w project (chosen_flat_type app) = Some n → (n > 0)%Z →
    let w' := step w (UpdateFlatAvailability self project (chosen_flat_type app) 1) in
    status_of w' a = Some "Booked" ∧
    units_of w' project (chosen_flat_type app) = Some (n - 1)%Z.

(** ** The scenarios of the specification *)

(** The project of the scenarios of the specification: Acacia, managed
    by manager 0, one officer slot, [u] 2-Room units and no 3-Room
    entry, with the officers [offs]. *)
Definition acacia (u : Z) (offs : list nat) : BTOProject :=
  mkProject 1 "Acacia" "Yishun" (<["2-Room" := mkFlatInfo u 350000]> ∅)
            (Some 0%nat) offs true 1.

(** The application of applicant 0 to Acacia for 2-Room. *)
Definition application_A (status : string) (flag : bool) : Application :=
  mkApplication 0 0 status "2-Room" flag.

(** Applicant A (object 0): single, aged 36, holding the applications
    of the store. *)
Definition applicant_A (l : list Application) : Applicant :=
  mkApplicant "S1234567A" 36 "Single" "A" (seq 0 (length l)) None.

(** Officer O (object 1), registered for Acacia or handling it. *)
Definition officer_O (o : OfficerPart) : Applicant :=
  mkApplicant "T7654321O" 30 "Married" "O" [] (Some o).

Definition registered : OfficerPart :=
  mkOfficerPart None (Some "Pending") (Some 0%nat).

Definition handling : OfficerPart :=
  mkOfficerPart (Some 0%nat) (Some "Approved") (Some 0%nat).

Definition manager_M : HDBManager := mkManager "T0000001M" "M" [0%nat].

(** A world of the scenarios: A, O in state [o], manager M, Acacia with
    [u] units and officers [offs], and the applications [l] of A. *)
Definition scene (o : OfficerPart) (offs : list nat) (u : Z) (l : list Application)
    : World :=
  mkWorld [applicant_A l; officer_O o] [manager_M] [acacia u offs] l
          (seq 0 (length l)) [0%nat] 2.

(** The first scenario of the specification, followed by the booking
    of the unit. *)
Definition scenario_one : list Op :=
  [ApplyForProject 0 0 "2-Room";
   ApproveOrRejectApplication 0 0 true;
   RequestWithdrawal 0 (Some 1%Z);
   ApproveOrRejectWithdrawal 0 0 false;
   UpdateFlatAvailability 1 0 "2-Room" 1].

(** O handles Acacia, which has one unit left, and A's application to
    it is Successful. *)
Definition booking_world : World :=
  scene handling [1%nat] 1 [application_A "Successful" false].

(** A project list whose one row has one officer slot and names two
    officers of the officer list. *)
Definition two_officers : list UserRow :=
  [mkUserRow "Daniel" "T2109876H" 36 "Single";
   mkUserRow "Emily" "S6543210I" 28 "Single"].

Definition acacia_row : ProjectRow :=
  mkProjectRow "Acacia Breeze" "Yishun" "2-Room" 2 350000 "3-Room" 3 450000
               "Jessica" 1 "Daniel,Emily".

Definition loaded_world : World :=
  main_init [] [mkUserRow "Jessica" "S5678901G" 26 "Married"] two_officers [acacia_row].

(** ** Enquiries *)

(** class Inquiry *)
Record Inquiry := mkInquiry {
  inquiry_applicant : nat;
  inquiry_officer : option nat;
  message : string;
  response : option string
}.

(** The Inquiry objects, InquiryController.inquiries, and the attribute
    [enquiries] of every applicant, read by the applicant's index. *)
Record Enquiries := mkEnquiries {
  inquiry_objects : list Inquiry;
  controller_inquiries : list nat;
  enquiries : nat → list nat
}.

(** What the enquiry methods of Applicant print. *)
Inductive EnquiryMsg :=
  | EnquirySubmitted       (* Enquiry submitted successfully. *)
  | NoEnquiriesToDelete    (* You have no enquiries to delete. *)
  | EnquiryDeleted         (* Enquiry deleted. *)
  | EnquiryInvalidChoice   (* Invalid choice. *)
  | EnquiryInvalidInput.   (* Invalid input. *)

(** list.remove(x) where x is in the list: the first occurrence goes. *)
Fixpoint list_remove_first (x : nat) (l : list nat) : list nat :=
  match l with
  | [] => []
  | y :: l' => if decide (y = x) then l' else y :: list_remove_first x l'
  end.

(** Inquiry.reply *)
Definition reply (q : Inquiry) (r : string) : Inquiry :=
  mkInquiry (inquiry_applicant q) (inquiry_officer q) (message q) (Some r).

(** InquiryController.createInquiry *)
Definition createInquiry (E : Enquiries) (inquiry : nat) : Enquiries :=
  mkEnquiries (inquiry_objects E) (controller_inquiries E ++ [inquiry]) (enquiries E).

(** InquiryController.deleteInquiry *)
Definition deleteInquiry (E : Enquiries) (inquiry : nat) : Enquiries :=
  if decide (inquiry ∈ controller_inquiries E)
  then mkEnquiries (inquiry_objects E)
                   (list_remove_first inquiry (controller_inquiries E)) (enquiries E)
  else E.

(** InquiryController.replyInquiry *)
Definition replyInquiry (E : Enquiries) (inquiry : nat) (r : string) : Enquiries :=
  match inquiry_objects E !! inquiry with
  | Some q => mkEnquiries (<[inquiry := reply q r]> (inquiry_objects E))
                          (controller_inquiries E) (enquiries E)
  | None => E
  end.

Definition set_enquiries (E : Enquiries) (self : nat) (l : list nat) : Enquiries :=
  mkEnquiries (inquiry_objects E) (controller_inquiries E)
              (λ i, if decide (i = self) then l else enquiries E i).

(** Applicant.submitEnquiry *)
Definition submitEnquiry (E : Enquiries) (self : nat) (msg : string)
    : Enquiries * EnquiryMsg :=
  let new_inquiry := length (inquiry_objects E) in
  let E1 := mkEnquiries (inquiry_objects E ++ [mkInquiry self None msg None])
                        (controller_inquiries E) (enquiries E) in
  let E2 := createInquiry E1 new_inquiry in
  (set_enquiries E2 self (enquiries E2 self ++ [new_inquiry]), EnquirySubmitted).

(** Applicant.deleteEnquiry; [choice] is what [int(choice)] gave, [None]
    when it raised ValueError. *)
Definition deleteEnquiry (E : Enquiries) (self : nat) (choice : option Z)
    : Enquiries * EnquiryMsg :=
  if decide (enquiries E self = []) then (E, NoEnquiriesToDelete)
  else match choice with
  | None => (E, EnquiryInvalidInput)
  | Some c =>
      let idx := (c - 1)%Z in
      if decide (0 <= idx < Z.of_nat (length (enquiries E self)))%Z then
        match enquiries E self !! Z.to_nat idx with
        | Some to_remove =>
            let E1 := deleteInquiry E to_remove in
            (set_enquiries E1 self (list_remove_first to_remove (enquiries E1 self)),
             EnquiryDeleted)
        | None => (E, EnquiryInvalidChoice)
        end
      else (E, EnquiryInvalidChoice)
  end.

(** Applicant.viewEnquiries: each message with the response printed
    under it, if one is. *)
Definition viewEnquiries (E : Enquiries) (self : nat) : list (string * option string) :=
  omap (λ x, q ← inquiry_objects E !! x; Some (message q, truthy (response q)))
       (enquiries E self).

(** The enquiry calls the menus make. *)
Inductive EnquiryOp :=
  | SubmitEnquiry (self : nat) (msg : string)
  | DeleteEnquiry (self : nat) (choice : option Z)
  | ReplyInquiry (inquiry : nat) (r : string).

Definition enquiry_step (E : Enquiries) (op : EnquiryOp) : Enquiries :=
  match op with
  | SubmitEnquiry self msg => fst (submitEnquiry E self msg)
  | DeleteEnquiry self choice => fst (deleteEnquiry E self choice)
  | ReplyInquiry inquiry r => replyInquiry E inquiry r
  end.

(** The enquiries at the start of [main]: none. *)
Definition no_enquiries : Enquiries := mkEnquiries [] [] (λ _, []).

Definition enquiry_run (ops : list EnquiryOp) : Enquiries :=
  foldl enquiry_step no_enquiries ops.

(** Every listed enquiry is an object, the controller lists none twice,
    and an applicant's list is a part of the controller's list, without
    repetition, of enquiries of that applicant. *)
Definition enquiries_ok (E : Enquiries) : Prop :=
  NoDup (controller_inquiries E) ∧
  (∀ x, x ∈ controller_inquiries E → (x < length (inquiry_objects E))%nat) ∧
  (∀ i, NoDup (enquiries E i) ∧
        ∀ x, x ∈ enquiries E i →
             x ∈ controller_inquiries E ∧
             (inquiry_applicant <$> inquiry_objects E !! x) = Some i).

(** ** The menus of [main] that pick from a list *)

(** How a menu choice that picks from a list ends: nothing was listed,
    the number typed was out of range ("Invalid choice."), something
    raised inside the [try] ("Invalid input."), or the method was called
    and printed its line. *)
Inductive MenuResult :=
  | NothingListed
  | MenuInvalidChoice
  | MenuInvalidInput
  | Called (w : World) (m : Msg).

(** The bare [except:] of the manager menu turns every exception of the
    call into "Invalid input.". *)
Definition of_result (r : Result) : MenuResult :=
  match r with
  | Returned w m => Called w m
  | KeyError | NoObject => MenuInvalidInput
  end.

(** The part choices 5, 6 and 7 of the manager menu share: [l] is the
    list shown, [c] what [int(c)] gave ([None] when it raised), and [k]
    the call made on the selected object. *)
Definition menu_select (l : list nat) (c : option Z) (k : nat → Result) : MenuResult :=
  if decide (l = []) then NothingListed
  else match c with
  | None => MenuInvalidInput
  | Some c =>
      let idx := (c - 1)%Z in
      if decide (0 <= idx < Z.of_nat (length l))%Z then
        match l !! Z.to_nat idx with
        | Some sel => of_result (k sel)
        | None => MenuInvalidChoice
        end
      else MenuInvalidChoice
  end.

(** Choice 5: the Pending applications to the projects of the manager. *)
Definition pending_apps (w : World) (current_user : nat) : list nat :=
  filter (λ a, match apps w !! a with
               | Some app =>
                   bool_decide (applicationStatus app = "Pending") &&
                   match projects w !! app_BTOProject app with
                   | Some p => bool_decide (manager p = Some current_user)
                   | None => false
                   end
               | None => false
               end = true) (controller_applications w).

Definition menu_approve_application (w : World) (current_user : nat)
    (c : option Z) (d : string) : MenuResult :=
  menu_select (pending_apps w current_user) c
    (λ sel_app, approveOrRejectApplication w current_user sel_app (bool_decide (d = "1"))).

(** Choice 6: the applications to the manager's projects whose
    withdrawal was requested. *)
Definition w_apps (w : World) (current_user : nat) : list nat :=
  filter (λ a, match apps w !! a with
               | Some app =>
                   requested_withdrawal app &&
                   match projects w !! app_BTOProject app with
                   | Some p => bool_decide (manager p = Some current_user)
                   | None => false
                   end
               | None => false
               end = true) (controller_applications w).

Definition menu_approve_withdrawal (w : World) (current_user : nat)
    (c : option Z) (d : string) : MenuResult :=
  menu_select (w_apps w current_user) c
    (λ sel_app, approveOrRejectWithdrawal w current_user sel_app (bool_decide (d = "1"))).

(** Choice 7: the officers whose registration for a project of the
    manager is Pending.  The officers of [main] are the users that have
    an officer part. *)
Definition pending_officers (w : World) (current_user : nat) : list nat :=
  filter (λ i, match users w !! i with
               | Some u =>
                   match officer u with
                   | Some o =>
                       match registered_project o with
                       | Some rp =>
                           match projects w !! rp with
                           | Some p => bool_decide (manager p = Some current_user) &&
                                       bool_decide (registration_status o = Some "Pending")
                           | None => false
                           end
                       | None => false
                       end
                   | None => false
                   end
               | None => false
               end = true) (seq 0 (length (users w))).

Definition menu_approve_officer (w : World) (current_user : nat)
    (c : option Z) (d : string) : MenuResult :=
  menu_select (pending_officers w current_user) c
    (λ sel_off, approveOrRejectHDBOfficerRegistration w current_user sel_off
                  (bool_decide (d = "1"))).

(** convert_flat_input of [main] *)
Definition convert_flat_input (user_input : string) : option string :=
  if decide (user_input = "2") then Some "2-Room"
  else if decide (user_input = "3") then Some "3-Room"
  else None.

(** How choice 10 of the officer menu ends. *)
Inductive UpdateResult :=
  | NotAssigned        (* You are not currently assigned to any project. *)
  | InvalidFlatType    (* Invalid flat type choice. *)
  | InvalidNumber      (* Invalid number. *)
  | UpdateCalled (r : Result).

(** Choice 10 of the officer menu; [num] is what [int(num)] gave. *)
Definition menu_update_flat_availability (w : World) (current_user : nat)
    (ft_input : string) (num : option Z) : UpdateResult :=
  match users w !! current_user with
  | Some u =>
      match officer u with
      | Some o =>
          match handling_project o with
          | None => NotAssigned
          | Some hp =>
              match convert_flat_input ft_input with
              | None => InvalidFlatType
              | Some ft_converted =>
                  match num with
                  | None => InvalidNumber
                  | Some nb =>
                      UpdateCalled (updateFlatAvailability w current_user hp ft_converted nb)
                  end
              end
          end
      | None => UpdateCalled NoObject
      end
  | None => UpdateCalled NoObject
  end.

(** ** Lookups and reports *)

(** ProjectController.findProjectByID *)
Definition findProjectByID (w : World) (pid : Z) : option nat :=
  find (λ i, match projects w !! i with
             | Some p => bool_decide (projectID p = pid)
             | None => false
             end) (controller_projects w).

(** HDBOfficer.generateReceipt: the application whose receipt it
    prints, [None] when it prints that no Booked application was
    found. *)
Definition generateReceipt (w : World) (who : nat) : option nat :=
  u ← users w !! who;
  find (λ a, bool_decide (status_of w a = Some "Booked")) (applications u).

(** HDBManager.generateApplicantReport: the applications it prints a
    line for. *)
Definition generateApplicantReport (w : World) (l : list nat) : list nat :=
  filter (λ a, status_of w a = Some "Booked") l.

(** ** The states the program reaches *)

(** The worlds [main] can be in: the loaded objects, then any sequence
    of operations. *)
Definition reachable (w : World) : Prop :=
  ∃ (applicant_rows manager_rows officer_rows : list UserRow)
    (project_rows : list ProjectRow) (ops : list Op),
    w = run (main_init applicant_rows manager_rows officer_rows project_rows) ops.

(** Project identifiers count up from 1 in the order of creation, the
    class counter holds the next one, and the controller lists every
    project. *)
Definition ids_sequential (w : World) : Prop :=
  project_counter w = (Z.of_nat (length (projects w)) + 1)%Z ∧
  (∀ i p, projects w !! i = Some p → projectID p = (Z.of_nat i + 1)%Z) ∧
  controller_projects w = seq 0 (length (projects w)).

(** Every application an applicant holds is in the store, and at most
    one of them is Pending or Successful. *)
Definition one_active (w : World) : Prop :=
  ∀ i u, users w !! i = Some u →
    (∀ a, a ∈ applications u → (a < length (apps w))%nat) ∧
    (length (filter (λ a, is_active w a = true) (applications u)) ≤ 1)%nat.

(** An officer who handles a project has an Approved registration and
    is on the officer list of that project. *)
Definition handling_is_approved (w : World) : Prop :=
  ∀ i u o p, users w !! i = Some u → officer u = Some o →
    handling_project o = Some p →
    registration_status o = Some "Approved" ∧
    ∃ pr, projects w !! p = Some pr ∧ i ∈ officers pr.

(** The attributes of a project that only editBTOProject and
    toggleProjectVisibility assign after __init__. *)
Definition static (p : BTOProject)
    : Z * string * string * gmap string FlatInfo * option nat * bool * Z :=
  (projectID p, projectName p, neighborhood p, flatTypes p, manager p,
   visibility p, officerSlot p).

(** [manager_obj] of load_projects for a row: the first manager whose
    name or NRIC is the row's Manager. *)
Definition manager_of_row (ms : list HDBManager) (row : ProjectRow) : option nat :=
  fst <$> list_find (λ m, manager_name m = row_Manager row ∨
                          manager_userID m = row_Manager row) ms.

(** The project load_projects makes of a row, before officers are
    attached. *)
Definition project_of_row (ms : list HDBManager) (counter : Z) (row : ProjectRow)
    : BTOProject :=
  BTOProject_init counter (row_Project_Name row) (row_Neighborhood row)
    (<[row_Type_2 row := mkFlatInfo (row_units_2 row) (row_price_2 row)]>
       (<[row_Type_1 row := mkFlatInfo (row_units_1 row) (row_price_1 row)]> ∅))
    (manager_of_row ms row) (row_Officer_Slot row).

(** The files of a session: applicant A, manager Jessica, the officers
    Daniel and Emily (objects 1 and 2), and Acacia Breeze. *)
Definition session_start : World :=
  main_init [mkUserRow "A" "S1234567A" 36 "Single"]
            [mkUserRow "Jessica" "S5678901G" 26 "Married"] two_officers [acacia_row].

(** A applies, Jessica approves, Daniel books the unit, Jessica creates
    a second project. *)
Definition session : list Op :=
  [ApplyForProject 0 0 "2-Room";
   ApproveOrRejectApplication 0 0 true;
   UpdateFlatAvailability 1 0 "2-Room" 1;
   CreateBTOProject 0 "Birch" "Bedok" 5 300000 5 400000 2].

(** ** Tactics *)

(** Reading index [a] of a list after an assignment at index [i]. *)
Ltac lookup_store i a :=
  destruct (decide (i = a)) as [->|?];
  [ rewrite list_lookup_insert_eq by (by eapply lookup_lt_Some)
  | rewrite list_lookup_insert_ne by done ].

(** Unfold one operation down to the tests it makes. *)
Ltac unfold_op :=
  unfold step, exec, applyForProject, requestWithdrawal, registerToProject,
    updateFlatAvailability, approveOrRejectApplication, approveOrRejectWithdrawal,
    approveOrRejectHDBOfficerRegistration, editBTOProject, toggleProjectVisibility,
    menu_createBTOProject, createBTOProject.

(** Split on every test and lookup an operation makes. *)
Ltac case_op :=
  repeat first
    [ case_decide
    | match goal with
      | |- context [existsb ?f ?l] => destruct (existsb f l) eqn:?
      | |- context [negb ?b] => destruct b eqn:?; simpl negb
      | |- context [match ?x with _ => _ end] =>
          lazymatch x with
          | context [match _ with _ => _ end] => fail
          | _ => destruct x eqn:?
          end
      end ];
  unfold with_apps, with_users, with_projects;
  cbn [users managers projects apps controller_applications controller_projects
       project_counter] in *.

(** * Properties *)

(** ** Project registry: reduceUnits *)

Lemma flatTypes_set_flatTypes p ft : flatTypes (set_flatTypes p ft) = ft.
Proof. reflexivity. Qed.

(** reduceUnits keeps the keys of the dictionary. *)
Lemma reduceUnits_keys (p : BTOProject) (flat_type : string) (num : Z) (k : string) :
  is_Some (flatTypes (reduceUnits p flat_type num) !! k) ↔ is_Some (flatTypes p !! k).
Proof.
  unfold reduceUnits.
  destruct (flatTypes p !! flat_type) as [info|] eqn:E; [|done].
  rewrite flatTypes_set_flatTypes.
  destruct (decide (flat_type = k)) as [->|Hne].
  - rewrite lookup_insert_eq, E. split; eauto.
  - by rewrite lookup_insert_ne.
Qed.

(** reduceUnits touches nothing but the dictionary. *)
Lemma reduceUnits_frame (p : BTOProject) (flat_type : string) (num : Z) :
  manager (reduceUnits p flat_type num) = manager p ∧
  officers (reduceUnits p flat_type num) = officers p ∧
  officerSlot (reduceUnits p flat_type num) = officerSlot p.
Proof. unfold reduceUnits. by destruct (flatTypes p !! flat_type). Qed.

(** C7.  reduceUnits subtracts [num] from the unit count of a flat type
    that is a key of the project's dictionary and clamps the result at
    zero; price and the other flat types are kept, and whatever the
    decrement no unit count of the flat type is negative afterwards.
    For a flat type that is not a key the project is returned as it
    was. *)
Theorem reduceUnits_clamps (p : BTOProject) (flat_type : string) (num : Z) :
  (∀ info, flatTypes p !! flat_type = Some info →
     flatTypes (reduceUnits p flat_type num) !! flat_type
       = Some (mkFlatInfo (Z.max 0 (units info - num)) (price info)) ∧
     (∀ info', flatTypes (reduceUnits p flat_type num) !! flat_type = Some info' →
               (0 <= units info')%Z) ∧
     (∀ other, other ≠ flat_type →
               flatTypes (reduceUnits p flat_type num) !! other = flatTypes p !! other)) ∧
  (flatTypes p !! flat_type = None → reduceUnits p flat_type num = p).
Proof.
  split.
  - intros info Hinfo.
    assert (Hlook : flatTypes (reduceUnits p flat_type num) !! flat_type
                    = Some (mkFlatInfo (Z.max 0 (units info - num)) (price info))).
    { unfold reduceUnits. rewrite Hinfo, flatTypes_set_flatTypes, lookup_insert_eq.
      do 2 f_equal. case_decide; lia. }
    split; [exact Hlook|split].
    + intros info'. rewrite Hlook. intros [= <-]. simpl. lia.
    + intros other Hne. unfold reduceUnits.
      rewrite Hinfo, flatTypes_set_flatTypes. by rewrite lookup_insert_ne.
  - intros Hnone. unfold reduceUnits. by rewrite Hnone.
Qed.

Lemma reduceUnits_clamps_witness :
  flatTypes (reduceUnits (acacia 1 []) "2-Room" 5) !! "2-Room"
    = Some (mkFlatInfo 0 350000) ∧
  reduceUnits (acacia 1 []) "3-Room" 5 = acacia 1 [].
Proof.
  split.
  - apply (proj1 (reduceUnits_clamps (acacia 1 []) "2-Room" 5) (mkFlatInfo 1 350000)).
    vm_compute. reflexivity.
  - apply (proj2 (reduceUnits_clamps (acacia 1 []) "3-Room" 5)).
    vm_compute. reflexivity.
Defined.

Lemma status_of_store_status w application app s :
  apps w !! application = Some app →
  status_of (store_status w application app s) application = Some s.
Proof.
  intros H. unfold status_of, store_status. simpl.
  rewrite list_lookup_insert_eq; [done|]. by eapply lookup_lt_Some.
Qed.

(** ** Manager decision on an application *)

(** C1.  approveOrRejectApplication on an application of the store:
    a manager who is not the project's manager, or a status other than
    Pending, leaves the world as it was (NotManager, NotPending).
    Otherwise a rejection stores Unsuccessful; an approval stores
    Successful when the chosen flat type has more than zero units, and
    when it has none it prints NotEnoughUnits (the specification's
    UnitsExhausted) and leaves the world, hence the status, as it was. *)
Theorem approveOrRejectApplication_spec (w : World) (self application : nat)
    (decision : bool) (app : Application) (p : BTOProject) :
  apps w !! application = Some app →
  projects w !! app_BTOProject app = Some p →
  let r := approveOrRejectApplication w self application decision in
  (manager p ≠ Some self → r = Returned w NotManager) ∧
  (manager p = Some self → applicationStatus app ≠ "Pending" →
     r = Returned w NotPending) ∧
  (manager p = Some self → applicationStatus app = "Pending" →
     (decision = false →
        r = Returned (store_status w application app "Unsuccessful") Rejected ∧
        status_of (store_status w application app "Unsuccessful") application
          = Some "Unsuccessful") ∧
     (decision = true → ∀ info, flatTypes p !! chosen_flat_type app = Some info →
        ((units info > 0)%Z →
           r = Returned (store_status w application app "Successful") Approved ∧
           status_of (store_status w application app "Successful") application
             = Some "Successful") ∧
        ((units info <= 0)%Z →
           r = Returned w NotEnoughUnits ∧ status_of w application = Some "Pending"))).
Proof.
  intros Happ Hp r. subst r. unfold approveOrRejectApplication.
  rewrite Happ, Hp. split; [|split].
  - intros Hm. by rewrite decide_True.
  - intros Hm Hs. rewrite decide_False by (intros ?; congruence).
    by rewrite decide_True.
  - intros Hm Hs.
    rewrite decide_False by (intros ?; congruence).
    rewrite decide_False by (intros ?; congruence).
    split.
    + intros ->. split; [done|]. by apply status_of_store_status.
    + intros -> info Hinfo. rewrite Hinfo. split.
      * intros Hu. rewrite decide_True by done.
        split; [done|]. by apply status_of_store_status.
      * intros Hu. rewrite decide_False by lia.
        split; [done|]. unfold status_of. by rewrite Happ, <- Hs.
Qed.

(** No unit is left in Acacia when the manager approves A's Pending
    application. *)
Lemma approveOrRejectApplication_spec_witness :
  approveOrRejectApplication (scene handling [1%nat] 0 [application_A "Pending" false])
                             0 0 true
    = Returned (scene handling [1%nat] 0 [application_A "Pending" false]) NotEnoughUnits ∧
  status_of (scene handling [1%nat] 0 [application_A "Pending" false]) 0 = Some "Pending".
Proof.
  pose proof (approveOrRejectApplication_spec
                (scene handling [1%nat] 0 [application_A "Pending" false]) 0 0 true
                (application_A "Pending" false) (acacia 0 [1%nat])
                eq_refl eq_refl) as (_ & _ & H).
  destruct (H eq_refl eq_refl) as [_ Happrove].
  assert (Hinfo : flatTypes (acacia 0 [1%nat]) !! "2-Room" = Some (mkFlatInfo 0 350000))
    by (vm_compute; reflexivity).
  destruct (Happrove eq_refl _ Hinfo) as [_ Hzero].
  apply Hzero. simpl. lia.
Defined.

(** [x in [a, b]] *)
Lemma elem_of_pair (x a b : string) : x ∈ [a; b] ↔ x = a ∨ x = b.
Proof. rewrite !elem_of_cons, elem_of_nil. tauto. Qed.

(** ** Manager decision on a withdrawal request *)

Lemma lookup_store_flag w application app b :
  apps w !! application = Some app →
  apps (store_flag w application app b) !! application
    = Some (set_requested_withdrawal app b).
Proof.
  intros H. unfold store_flag. simpl.
  rewrite list_lookup_insert_eq; [done|]. by eapply lookup_lt_Some.
Qed.

(** C5.  approveOrRejectWithdrawal on an application of the store: a
    manager who is not the project's manager, or a withdrawal flag that
    is not set, leaves the world as it was.  Otherwise an approval of a
    Pending or Successful application stores Unsuccessful and clears the
    flag, an approval in any other status changes nothing
    (CannotBeWithdrawn), and a rejection clears the flag and keeps the
    status. *)
Theorem approveOrRejectWithdrawal_spec (w : World) (self application : nat)
    (decision : bool) (app : Application) (p : BTOProject) :
  apps w !! application = Some app →
  projects w !! app_BTOProject app = Some p →
  let r := approveOrRejectWithdrawal w self application decision in
  (manager p ≠ Some self → r = Returned w NotManager) ∧
  (manager p = Some self → requested_withdrawal app = false →
     r = Returned w NoWithdrawalRequested) ∧
  (manager p = Some self → requested_withdrawal app = true →
     (decision = true →
        (applicationStatus app = "Pending" ∨ applicationStatus app = "Successful" →
           ∃ w', r = Returned w' WithdrawalApproved ∧
                 w' = with_apps w (<[application :=
                        set_requested_withdrawal (updateStatus app "Unsuccessful") false]>
                        (apps w)) ∧
                 status_of w' application = Some "Unsuccessful" ∧
                 flag_of w' application = Some false) ∧
        (applicationStatus app ≠ "Pending" → applicationStatus app ≠ "Successful" →
           r = Returned w CannotBeWithdrawn)) ∧
     (decision = false →
        ∃ w', r = Returned w' WithdrawalRejected ∧
              w' = store_flag w application app false ∧
              status_of w' application = Some (applicationStatus app) ∧
              flag_of w' application = Some false)).
Proof.
  intros Happ Hp r. subst r. unfold approveOrRejectWithdrawal.
  rewrite Happ, Hp. split; [|split].
  - intros Hm. by rewrite decide_True.
  - intros Hm Hf. rewrite decide_False by (intros ?; congruence).
    by rewrite Hf.
  - intros Hm Hf. rewrite decide_False by (intros ?; congruence).
    rewrite Hf. simpl. split.
    + intros ->. split.
      * intros Hs. rewrite decide_True by (by apply elem_of_pair).
        eexists. split; [reflexivity|]. split; [reflexivity|].
        unfold status_of, flag_of. simpl.
        rewrite list_lookup_insert_eq by (by eapply lookup_lt_Some). done.
      * intros H1 H2. rewrite decide_False; [done|].
        rewrite elem_of_pair. tauto.
    + intros ->. exists (store_flag w application app false).
      split; [reflexivity|]. split; [reflexivity|].
      unfold status_of, flag_of. by rewrite lookup_store_flag.
Qed.

(** The second scenario of the specification: a Successful application
    whose withdrawal was requested, and the manager rejects the request. *)
Lemma approveOrRejectWithdrawal_spec_witness :
  ∃ w', approveOrRejectWithdrawal
          (scene handling [1%nat] 1 [application_A "Successful" true]) 0 0 false
          = Returned w' WithdrawalRejected ∧
        w' = store_flag (scene handling [1%nat] 1 [application_A "Successful" true]) 0
                        (application_A "Successful" true) false ∧
        status_of w' 0 = Some "Successful" ∧ flag_of w' 0 = Some false.
Proof.
  pose proof (approveOrRejectWithdrawal_spec
                (scene handling [1%nat] 1 [application_A "Successful" true]) 0 0 false
                (application_A "Successful" true) (acacia 1 [1%nat])
                eq_refl eq_refl) as (_ & _ & H).
  destruct (H eq_refl eq_refl) as [_ Hreject].
  exact (Hreject eq_refl).
Defined.

(** ** Eligibility *)

(** The comparison with "single" ignores case, and every other marital
    status takes the married branch. *)
Example is_single_examples :
  is_single (applicant_A []) = true ∧
  is_single (mkApplicant "x" 40 "SINGLE" "x" [] None) = true ∧
  is_single (mkApplicant "x" 40 "Married" "x" [] None) = false ∧
  is_single (mkApplicant "x" 40 "Divorced" "x" [] None) = false.
Proof. repeat split; vm_compute; reflexivity. Qed.

Lemma can_apply_types_cases (u : Applicant) :
  can_apply_types u =
    if is_single u
    then if decide (age u < 35)%Z then None else Some ["2-Room"]
    else if decide (age u < 21)%Z then None else Some ["2-Room"; "3-Room"].
Proof.
  unfold can_apply_types.
  destruct (is_single u); simpl; repeat case_bool_decide; repeat case_decide;
    first [done | lia].
Qed.

(** C3.  A flat type passes the tests of applyForProject, and is among
    the types viewProjects filters by, exactly as follows: for a single
    person under 35 no flat type (and viewProjects lists nothing); for a
    single person of 35 or more exactly 2-Room; for a person who is not
    single and under 21 no flat type; for a person who is not single and
    21 or more exactly 2-Room and 3-Room. *)
Theorem eligible_flat_types (u : Applicant) :
  (is_single u = true → (age u < 35)%Z →
     (∀ ft, flat_type_check u ft ≠ None) ∧ can_apply_types u = None ∧
     (∀ w ps, viewProjects w u ps = [])) ∧
  (is_single u = true → (35 <= age u)%Z →
     (∀ ft, flat_type_check u ft = None ↔ ft ∈ ["2-Room"]) ∧
     can_apply_types u = Some ["2-Room"]) ∧
  (is_single u = false → (age u < 21)%Z →
     (∀ ft, flat_type_check u ft ≠ None) ∧ can_apply_types u = None ∧
     (∀ w ps, viewProjects w u ps = [])) ∧
  (is_single u = false → (21 <= age u)%Z →
     (∀ ft, flat_type_check u ft = None ↔ ft ∈ ["2-Room"; "3-Room"]) ∧
     can_apply_types u = Some ["2-Room"; "3-Room"]).
Proof.
  unfold viewProjects. rewrite can_apply_types_cases. unfold flat_type_check.
  split; [|split; [|split]]; intros Hs Hage; rewrite Hs; (split; [intros ft|]).
  - by rewrite decide_True.
  - by rewrite decide_True.
  - rewrite decide_False by lia. rewrite list_elem_of_singleton.
    case_decide; split; intros; first [done | congruence].
  - by rewrite decide_False by lia.
  - by rewrite decide_True.
  - by rewrite decide_True.
  - rewrite decide_False by lia.
    case_decide; split; intros; first [done | congruence | tauto].
  - by rewrite decide_False by lia.
Qed.

Lemma eligible_flat_types_witness :
  (∀ ft, flat_type_check (applicant_A []) ft = None ↔ ft ∈ ["2-Room"]) ∧
  can_apply_types (applicant_A []) = Some ["2-Room"].
Proof.
  apply (proj1 (proj2 (eligible_flat_types (applicant_A [])))).
  - vm_compute. reflexivity.
  - simpl. lia.
Defined.

(** ** Creating an application *)

Lemma filter_nonempty {A} (P : A → Prop) `{!∀ x, Decision (P x)} (l : list A) :
  filter P l ≠ [] ↔ ∃ x, x ∈ l ∧ P x.
Proof.
  split.
  - intros Hne. destruct (filter P l) as [|x l'] eqn:E; [done|].
    assert (Hx : x ∈ filter P l) by (rewrite E; left).
    apply list_elem_of_filter in Hx. exists x. tauto.
  - intros (x & Hx & HP) E. by eapply filter_nil_not_elem_of.
Qed.

Lemma is_active_status (w : World) (a : nat) :
  is_active w a = true ↔
  status_of w a = Some "Pending" ∨ status_of w a = Some "Successful".
Proof.
  unfold is_active, status_of. destruct (apps w !! a) as [app|]; simpl.
  - rewrite bool_decide_eq_true, elem_of_pair. split.
    + intros [-> | ->]; auto.
    + intros [[= ->] | [= ->]]; auto.
  - split; [done|]. by intros [|].
Qed.

(** C2.  applyForProject by an applicant of the store to a project of
    the store fails, printing a line other than Submitted, when the
    applicant holds a Pending or Successful application (AlreadyActive,
    the specification's DuplicateActiveApplication), when the flat type
    does not pass the eligibility tests, or when the project has no unit
    of that flat type left.  Whenever it returns without Submitted the
    world is the one before the call, so no Application was created.
    When none of the three holds it returns Submitted, and then the
    store has exactly one more Application, which is Pending with the
    withdrawal flag false. *)
Theorem applyForProject_spec (w : World) (self project : nat) (flat_type : string)
    (u : Applicant) (p : BTOProject) :
  users w !! self = Some u →
  projects w !! project = Some p →
  let r := applyForProject w self project flat_type in
  (has_active w u → r = Returned w AlreadyActive) ∧
  (¬ has_active w u → ∀ m, flat_type_check u flat_type = Some m → r = Returned w m) ∧
  (¬ has_active w u → flat_type_check u flat_type = None →
     ∀ info, flatTypes p !! flat_type = Some info → (units info <= 0)%Z →
     r = Returned w NoAvailableUnits) ∧
  (has_active w u ∨ flat_type_check u flat_type ≠ None ∨
   (∃ info, flatTypes p !! flat_type = Some info ∧ (units info <= 0)%Z) →
     ∃ m, r = Returned w m ∧ m ≠ Submitted) ∧
  (∀ w' m, r = Returned w' m → m ≠ Submitted → w' = w) ∧
  (¬ has_active w u → flat_type_check u flat_type = None →
     ∀ info, flatTypes p !! flat_type = Some info → (units info > 0)%Z →
     r = Returned (world_after_apply w self project flat_type u) Submitted) ∧
  (∀ w', r = Returned w' Submitted →
     w' = world_after_apply w self project flat_type u ∧
     length (apps w') = S (length (apps w)) ∧
     status_of w' (length (apps w)) = Some "Pending" ∧
     flag_of w' (length (apps w)) = Some false).
Proof.
  intros Hu Hp r.
  assert (Hact : has_active w u ↔
                 filter (λ a, is_active w a = true) (applications u) ≠ []).
  { rewrite filter_nonempty. unfold has_active.
    split; intros (a & Ha & Hs); exists a; split; try done; by apply is_active_status. }
  assert (Hcheck : ∀ m, flat_type_check u flat_type = Some m → m ≠ Submitted).
  { intros m. unfold flat_type_check.
    destruct (is_single u); repeat case_decide; intros [= <-] || intros [=]; done. }
  assert (Hnew : ∀ w', w' = world_after_apply w self project flat_type u →
                 length (apps w') = S (length (apps w)) ∧
                 status_of w' (length (apps w)) = Some "Pending" ∧
                 flag_of w' (length (apps w)) = Some false).
  { intros w' ->. unfold status_of, flag_of, world_after_apply. simpl.
    rewrite length_app, lookup_app_r, Nat.sub_diag by lia. simpl. split; [lia|done]. }
  assert (Hr :
    (has_active w u ∧ r = Returned w AlreadyActive) ∨
    (¬ has_active w u ∧
     ((∃ m, flat_type_check u flat_type = Some m ∧ r = Returned w m) ∨
      (flat_type_check u flat_type = None ∧
       ((flatTypes p !! flat_type = None ∧ r = KeyError) ∨
        (∃ info, flatTypes p !! flat_type = Some info ∧
           (((units info <= 0)%Z ∧ r = Returned w NoAvailableUnits) ∨
            ((units info > 0)%Z ∧
             r = Returned (world_after_apply w self project flat_type u) Submitted)))))))).
  { subst r. unfold applyForProject. rewrite Hu, Hp.
    case_decide as Hf; [left; split; [by apply Hact|done]|right].
    split; [intros Ha; by apply Hact in Ha|].
    destruct (flat_type_check u flat_type) as [m|]; [left; by exists m|right].
    split; [done|].
    destruct (flatTypes p !! flat_type) as [info|]; [right; exists info|left; done].
    split; [done|]. case_decide; [left; done|right]. split; [lia|done]. }
  clearbody r.
  destruct Hr as [[Ha ->] | [Hna [(m & Em & ->) | [En [[Ei ->] | (info & Ei & [[Hle ->] | [Hgt ->]])]]]]];
    try specialize (Hcheck _ Em);
    split_and!; try done; try congruence;
    try (by eexists);
    try (by intros w' m' [= <- <-]);
    try (intros w' [= <-]; split; [done|]; by apply Hnew);
    try (intros _ _ info' ? ?; assert (info' = info) as -> by congruence; lia);
    try (intros [? | [? | (info' & ? & ?)]]; try done; try congruence;
         assert (info' = info) as -> by congruence; lia).
Qed.

(** The first scenario of the specification: A, who holds no
    application, applies for 2-Room in Acacia, one unit left. *)
Lemma applyForProject_spec_witness :
  applyForProject (scene handling [1%nat] 1 []) 0 0 "2-Room"
    = Returned (scene handling [1%nat] 1 [application_A "Pending" false]) Submitted.
Proof.
  pose proof (applyForProject_spec (scene handling [1%nat] 1 []) 0 0 "2-Room"
                (applicant_A []) (acacia 1 [1%nat])
                eq_refl eq_refl) as (_ & _ & _ & _ & _ & H & _).
  apply (H ltac:(intros (a & Ha & _); inversion Ha) ltac:(vm_compute; reflexivity)
           (mkFlatInfo 1 350000) ltac:(vm_compute; reflexivity) ltac:(simpl; lia)).
Defined.

(** Acacia has no 3-Room entry: a married applicant of 30 who asks for
    3-Room passes the eligibility tests and the subscript raises. *)
Example applyForProject_raises :
  applyForProject (scene handling [1%nat] 1 []) 1 0 "3-Room" = KeyError.
Proof. vm_compute. reflexivity. Qed.

(** ** What one operation does to the stores *)

Lemma performed_transition (s s' : string) : performed s s' → transition s s'.
Proof. destruct 1; constructor. Qed.

(** An Application object stays in the store, keeps its applicant, its
    project and its flat type, and its status is left alone or changed
    by one of the three calls of updateStatus. *)
Lemma step_app (w : World) (op : Op) (a : nat) (app : Application) :
  apps w !! a = Some app →
  ∃ app', apps (step w op) !! a = Some app' ∧
          applicant app' = applicant app ∧
          app_BTOProject app' = app_BTOProject app ∧
          chosen_flat_type app' = chosen_flat_type app ∧
          (applicationStatus app' = applicationStatus app ∨
           performed (applicationStatus app) (applicationStatus app')).
Proof.
  intros Ha.
  assert (Hsame : ∃ app', apps w !! a = Some app' ∧
            applicant app' = applicant app ∧
            app_BTOProject app' = app_BTOProject app ∧
            chosen_flat_type app' = chosen_flat_type app ∧
            (applicationStatus app' = applicationStatus app ∨
             performed (applicationStatus app) (applicationStatus app')))
    by (exists app; split_and!; auto).
  destruct op; unfold_op; case_op; try exact Hsame.
  all: try (erewrite lookup_app_l_Some by eassumption; exists app; split_and!; by auto).
  all: try match goal with
       | |- context [<[?i := _]> (apps _) !! ?j] => lookup_store i j; [|exact Hsame]
       end.
  all: eexists; (split; [reflexivity|]); simplify_eq; simpl; split_and!; try done.
  all: try (by left).
  all: right.
  all: repeat match goal with
       | H : applicationStatus _ = _ |- _ => rewrite H
       | H : _ ∈ [_; _] |- _ => apply elem_of_pair in H; destruct H
       end; try constructor.
Qed.

(** Only applyForProject adds an Application, at the next index; the new
    object is Pending, its flag is clear, and its flat type was a key of
    the project's dictionary with units left. *)
Lemma step_new_app (w : World) (op : Op) (a : nat) (app' : Application) :
  apps w !! a = None →
  apps (step w op) !! a = Some app' →
  ∃ self project ft p info,
    op = ApplyForProject self project ft ∧
    a = length (apps w) ∧
    app' = mkApplication self project "Pending" ft false ∧
    projects w !! project = Some p ∧
    flatTypes p !! ft = Some info ∧ (units info > 0)%Z.
Proof.
  intros Hnone.
  destruct op; unfold_op; case_op; try (rewrite Hnone; discriminate).
  all: try match goal with
       | |- context [<[?i := _]> (apps _) !! ?j] =>
           destruct (decide (i = j)) as [->|?];
           [congruence|rewrite list_lookup_insert_ne by done; rewrite Hnone; discriminate]
       end.
  intros Hl. apply lookup_app_Some in Hl as [Hl|[Hlen Hl]]; [congruence|].
  apply list_lookup_singleton_Some in Hl as [Hz <-].
  eexists _, _, _, _, _. split_and!; try done; lia.
Qed.

(** A BTOProject object stays in the store and keeps its manager, its
    slot capacity and the keys of its dictionary; its officer list stays
    within the capacity if it was; and the dictionary itself is
    untouched unless the operation is updateFlatAvailability. *)
Lemma step_project (w : World) (op : Op) (i : nat) (p : BTOProject) :
  projects w !! i = Some p →
  ∃ p', projects (step w op) !! i = Some p' ∧
        manager p' = manager p ∧
        officerSlot p' = officerSlot p ∧
        (∀ k, is_Some (flatTypes p' !! k) ↔ is_Some (flatTypes p !! k)) ∧
        ((Z.of_nat (length (officers p)) <= officerSlot p)%Z →
         (Z.of_nat (length (officers p')) <= officerSlot p')%Z) ∧
        ((∀ self project ft n, op ≠ UpdateFlatAvailability self project ft n) →
         flatTypes p' = flatTypes p).
Proof.
  intros Hp.
  assert (Hsame : ∃ p', projects w !! i = Some p' ∧
        manager p' = manager p ∧
        officerSlot p' = officerSlot p ∧
        (∀ k, is_Some (flatTypes p' !! k) ↔ is_Some (flatTypes p !! k)) ∧
        ((Z.of_nat (length (officers p)) <= officerSlot p)%Z →
         (Z.of_nat (length (officers p')) <= officerSlot p')%Z) ∧
        ((∀ self project ft n, op ≠ UpdateFlatAvailability self project ft n) →
         flatTypes p' = flatTypes p))
    by (exists p; split_and!; auto).
  destruct op; unfold_op; case_op; try exact Hsame.
  all: try (erewrite lookup_app_l_Some by eassumption; exists p; split_and!; by auto).
  all: try match goal with
       | |- context [<[?j := _]> (projects _) !! ?k] => lookup_store j k; [|exact Hsame]
       end.
  all: eexists; (split; [reflexivity|]); simplify_eq.
  1:{ (* updateFlatAvailability *)
      destruct (reduceUnits_frame p flat_type number_booked) as (Hm & Ho & Hs).
      rewrite Hm, Ho, Hs. split_and!; try done.
      - intros k. apply reduceUnits_keys.
      - intros Hne. by destruct (Hne self i flat_type number_booked). }
  1:{ (* approval of an officer *)
      simpl. split_and!; try done. rewrite length_app. simpl. lia. }
  (* editBTOProject as the menu calls it, and toggleProjectVisibility *)
  all: simpl; split_and!; done.
Qed.

(** ** Unit counts change at booking only *)

Lemma units_of_projects (w w' : World) :
  projects w' = projects w → ∀ project ft, units_of w' project ft = units_of w project ft.
Proof. intros H project ft. unfold units_of. by rewrite H. Qed.

(** C8.  approveOrRejectApplication, whatever it prints, returns a world
    with the same project store, so every unit count of every project
    is what it was; and an operation other than updateFlatAvailability
    leaves every unit count of every project of the store as it was. *)
Theorem approval_keeps_units (w : World) :
  (∀ self application decision w' m,
     approveOrRejectApplication w self application decision = Returned w' m →
     projects w' = projects w ∧
     ∀ project ft, units_of w' project ft = units_of w project ft) ∧
  (∀ op project ft n,
     (∀ self project' ft' k, op ≠ UpdateFlatAvailability self project' ft' k) →
     units_of w project ft = Some n →
     units_of (step w op) project ft = Some n).
Proof.
  split.
  - intros self application decision w' m Hr.
    assert (Hp : projects w' = projects w).
    { revert Hr. unfold approveOrRejectApplication. case_op; by intros [= <- _]. }
    split; [done|]. by apply units_of_projects.
  - intros op project ft n Hop. unfold units_of.
    destruct (projects w !! project) as [p|] eqn:Hp; [|done]. simpl.
    destruct (step_project w op project p Hp) as (p' & -> & _ & _ & _ & _ & Hft).
    simpl. by rewrite (Hft Hop).
Qed.

(** The first scenario of the specification: approving the application
    to Acacia leaves its one 2-Room unit. *)
Lemma approval_keeps_units_witness :
  units_of (step (scene handling [1%nat] 1 [application_A "Pending" false])
                 (ApproveOrRejectApplication 0 0 true))
           0 "2-Room" = Some 1%Z.
Proof.
  apply (proj2 (approval_keeps_units (scene handling [1%nat] 1 [application_A "Pending" false]))
               (ApproveOrRejectApplication 0 0 true) 0%nat "2-Room" 1%Z).
  - intros; discriminate.
  - vm_compute. reflexivity.
Defined.

(** ** The application state machine *)

Lemma step_status (w : World) (op : Op) (a : nat) (s : string) :
  status_of w a = Some s →
  ∃ s', status_of (step w op) a = Some s' ∧ (s' = s ∨ performed s s').
Proof.
  unfold status_of. intros Hs.
  destruct (apps w !! a) as [app|] eqn:Ha; simplify_eq/=.
  destruct (step_app w op a app Ha) as (app' & -> & _ & _ & _ & Hst).
  exists (applicationStatus app'). split; [done|]. destruct Hst; auto.
Qed.

Lemma step_status_new (w : World) (op : Op) (a : nat) (s' : string) :
  status_of w a = None → status_of (step w op) a = Some s' → s' = "Pending".
Proof.
  unfold status_of. intros Hnone Hs.
  destruct (apps w !! a) eqn:Ha; [done|].
  destruct (apps (step w op) !! a) as [app'|] eqn:Ha'; simplify_eq/=.
  by destruct (step_new_app w op a app' Ha Ha') as (? & ? & ? & ? & ? & _ & _ & -> & _).
Qed.

Lemma run_cons (w : World) (op : Op) (ops : list Op) :
  run w (op :: ops) = run (step w op) ops.
Proof. reflexivity. Qed.

Lemma run_status (ops : list Op) (w : World) (a : nat) (s : string) :
  status_of w a = Some s →
  ∃ s', status_of (run w ops) a = Some s' ∧ rtc performed s s'.
Proof.
  revert w s. induction ops as [|op ops IH]; intros w s Hs.
  - exists s. by split.
  - destruct (step_status w op a s Hs) as (s1 & Hs1 & Hedge).
    destruct (IH _ _ Hs1) as (s' & Hs' & Hrtc).
    exists s'. rewrite run_cons. split; [done|].
    destruct Hedge as [->|Hedge]; [done|]. by eapply rtc_l.
Qed.

Lemma run_status_new (ops : list Op) (w : World) (a : nat) (s' : string) :
  status_of w a = None → status_of (run w ops) a = Some s' → rtc performed "Pending" s'.
Proof.
  revert w. induction ops as [|op ops IH]; intros w Hnone Hs'.
  - simpl in Hs'. congruence.
  - rewrite run_cons in Hs'.
    destruct (status_of (step w op) a) as [s1|] eqn:Hs1.
    + apply (step_status_new w op a s1 Hnone) in Hs1 as Heq. subst s1.
      destruct (run_status ops _ a _ Hs1) as (s2 & Hs2 & Hrtc). congruence.
    + by apply (IH (step w op)).
Qed.

Lemma rtc_performed_transition (s s' : string) :
  rtc performed s s' → rtc transition s s'.
Proof.
  induction 1 as [|x y z Hxy _ IH]; [done|].
  eapply rtc_l; [by apply performed_transition|done].
Qed.

(** Unsuccessful and Booked have no outgoing edge. *)
Lemma terminal_status (s s' : string) :
  s = "Unsuccessful" ∨ s = "Booked" → rtc transition s s' → s' = s.
Proof.
  intros Hs Hrtc. destruct Hrtc as [|x y z Hxy _]; [done|].
  destruct Hxy, Hs; discriminate.
Qed.

(** C4.  From any world and for any Application object: one operation
    leaves its status alone or moves it along one of Pending to
    Successful, Pending to Unsuccessful, Successful to Unsuccessful,
    Successful to Booked; an object that an operation creates starts as
    Pending; so after any sequence of operations the status is reachable
    along those edges from the status it had, or from Pending if it was
    created on the way, and an Unsuccessful or Booked application stays
    as it is. *)
Theorem status_transitions (w : World) (ops : list Op) (a : nat) :
  (∀ op s, status_of w a = Some s →
     ∃ s', status_of (step w op) a = Some s' ∧ (s' = s ∨ transition s s')) ∧
  (∀ op s', status_of w a = None → status_of (step w op) a = Some s' →
     s' = "Pending") ∧
  (∀ s, status_of w a = Some s →
     ∃ s', status_of (run w ops) a = Some s' ∧ rtc transition s s') ∧
  (∀ s', status_of w a = None → status_of (run w ops) a = Some s' →
     rtc transition "Pending" s') ∧
  (∀ s, s = "Unsuccessful" ∨ s = "Booked" → status_of w a = Some s →
     status_of (run w ops) a = Some s).
Proof.
  split_and!.
  - intros op s Hs. destruct (step_status w op a s Hs) as (s' & Hs' & Hedge).
    exists s'. split; [done|]. destruct Hedge; auto using performed_transition.
  - intros op s'. apply step_status_new.
  - intros s Hs. destruct (run_status ops w a s Hs) as (s' & Hs' & Hrtc).
    exists s'. auto using rtc_performed_transition.
  - intros s' Hnone Hs'. eauto using rtc_performed_transition, run_status_new.
  - intros s Hterm Hs. destruct (run_status ops w a s Hs) as (s' & Hs' & Hrtc).
    rewrite Hs'. f_equal. apply terminal_status; auto using rtc_performed_transition.
Qed.

(** The application is created Pending, approved with the unit count
    untouched, keeps its status through the rejected withdrawal, and is
    still Successful after the booking has taken the unit. *)
Example scenario_one_run :
  status_of (run (scene handling [1%nat] 1 []) (take 1 scenario_one)) 0 = Some "Pending" ∧
  status_of (run (scene handling [1%nat] 1 []) (take 2 scenario_one)) 0 = Some "Successful" ∧
  units_of (run (scene handling [1%nat] 1 []) (take 2 scenario_one)) 0 "2-Room" = Some 1%Z ∧
  flag_of (run (scene handling [1%nat] 1 []) (take 3 scenario_one)) 0 = Some true ∧
  status_of (run (scene handling [1%nat] 1 []) (take 4 scenario_one)) 0 = Some "Successful" ∧
  flag_of (run (scene handling [1%nat] 1 []) (take 4 scenario_one)) 0 = Some false ∧
  status_of (run (scene handling [1%nat] 1 []) scenario_one) 0 = Some "Successful" ∧
  units_of (run (scene handling [1%nat] 1 []) scenario_one) 0 "2-Room" = Some 0%Z.
Proof. vm_compute. repeat split. Qed.

Lemma status_transitions_witness :
  ∃ s', status_of (run (scene handling [1%nat] 1 []) scenario_one) 0 = Some s' ∧
        rtc transition "Pending" s'.
Proof.
  apply (proj1 (proj2 (proj2
           (status_transitions
              (step (scene handling [1%nat] 1 []) (ApplyForProject 0 0 "2-Room"))
              (drop 1 scenario_one) 0))) "Pending").
  vm_compute. reflexivity.
Defined.

(** ** Booking *)

(** What the call does in [booking_world]: the last unit goes, the
    application is still Successful. *)
Example booking_world_after :
  exec booking_world (UpdateFlatAvailability 1 0 "2-Room" 1)
    = Returned (step booking_world (UpdateFlatAvailability 1 0 "2-Room" 1))
               AvailabilityUpdated ∧
  units_of (step booking_world (UpdateFlatAvailability 1 0 "2-Room" 1)) 0 "2-Room"
    = Some 0%Z ∧
  status_of (step booking_world (UpdateFlatAvailability 1 0 "2-Room" 1)) 0
    = Some "Successful".
Proof. vm_compute. repeat split. Qed.

(** C6, counterexample: in [booking_world] the booking of the one unit
    by the project's officer leaves the application Successful. *)
Lemma booking_does_not_store_Booked : ¬ booking_stores_Booked.
Proof.
  intros H.
  destruct (H booking_world 1%nat 0%nat 0%nat (officer_O handling) handling
              (application_A "Successful" false) 1%Z
              eq_refl eq_refl eq_refl eq_refl eq_refl eq_refl
              ltac:(vm_compute; reflexivity) ltac:(lia)) as [Hs _].
  vm_compute in Hs. discriminate Hs.
Qed.

(** C6, as amended.  updateFlatAvailability by an officer of the store
    on a project of the store: when the officer does not handle the
    project nothing changes (NotHandling); when the officer does, the
    project is replaced by its reduceUnits, so the unit count of a flat
    type of the dictionary becomes the old count less the number booked,
    floored at zero.  The call changes the status of no application, and
    no operation at all makes an application Booked that was not. *)
Theorem updateFlatAvailability_spec (w : World) (self project : nat)
    (flat_type : string) (number_booked : Z)
    (u : Applicant) (o : OfficerPart) (p : BTOProject) :
  users w !! self = Some u → officer u = Some o →
  projects w !! project = Some p →
  let r := updateFlatAvailability w self project flat_type number_booked in
  let w' := with_projects w
              (<[project := reduceUnits p flat_type number_booked]> (projects w)) in
  (handling_project o ≠ Some project → r = Returned w NotHandling) ∧
  (handling_project o = Some project →
     r = Returned w' AvailabilityUpdated ∧
     (∀ info, flatTypes p !! flat_type = Some info →
        units_of w' project flat_type = Some (Z.max 0 (units info - number_booked)))) ∧
  (∀ a, status_of (step w (UpdateFlatAvailability self project flat_type number_booked)) a
        = status_of w a) ∧
  (∀ op a, status_of (step w op) a = Some "Booked" → status_of w a = Some "Booked").
Proof.
  intros Hu Ho Hp r w'. subst r w'. unfold updateFlatAvailability.
  rewrite Hu, Hp, Ho. split_and!.
  - intros Hh. by rewrite decide_True.
  - intros Hh. rewrite decide_False by (intros ?; congruence).
    split; [done|]. intros info Hinfo. unfold units_of, with_projects. simpl.
    rewrite list_lookup_insert_eq by (by eapply lookup_lt_Some). simpl.
    destruct (reduceUnits_clamps p flat_type number_booked) as [Hc _].
    destruct (Hc info Hinfo) as [-> _]. done.
  - intros a. unfold step, exec, updateFlatAvailability. rewrite Hu, Hp, Ho.
    by case_decide.
  - intros op a Hb. destruct (status_of w a) as [s|] eqn:Hs.
    + destruct (step_status w op a s Hs) as (s' & Hs' & Hedge).
      rewrite Hs' in Hb. simplify_eq. destruct Hedge as [->|Hedge]; [done|].
      inversion Hedge.
    + by apply (step_status_new w op a _ Hs) in Hb.
Qed.

Lemma updateFlatAvailability_spec_witness :
  updateFlatAvailability booking_world 1 0 "2-Room" 1
    = Returned (with_projects booking_world
                  (<[0%nat := reduceUnits (acacia 1 [1%nat]) "2-Room" 1]>
                     (projects booking_world)))
               AvailabilityUpdated.
Proof.
  pose proof (updateFlatAvailability_spec booking_world 1 0 "2-Room" 1
                (officer_O handling) handling (acacia 1 [1%nat])
                eq_refl eq_refl eq_refl) as (_ & H & _).
  exact (proj1 (H eq_refl)).
Defined.

(** ** The unguarded subscript of the approve branch *)

Lemma flat_type_check_not_Submitted (u : Applicant) (flat_type : string) :
  flat_type_check u flat_type ≠ Some Submitted.
Proof.
  unfold flat_type_check. destruct (is_single u); repeat case_decide; discriminate.
Qed.

(** What a successful applyForProject found and what it left. *)
Lemma applyForProject_Submitted (w w1 : World) (self project : nat) (flat_type : string) :
  applyForProject w self project flat_type = Returned w1 Submitted →
  ∃ u p info,
    users w !! self = Some u ∧ projects w !! project = Some p ∧
    flatTypes p !! flat_type = Some info ∧ (units info > 0)%Z ∧
    w1 = world_after_apply w self project flat_type u.
Proof.
  unfold applyForProject.
  destruct (users w !! self) as [u|] eqn:Eu; [|done].
  destruct (projects w !! project) as [p|] eqn:Ep; [|done].
  case_decide; [done|].
  destruct (flat_type_check u flat_type) as [m|] eqn:Em.
  { intros [= _ ->]. by destruct (flat_type_check_not_Submitted u flat_type). }
  destruct (flatTypes p !! flat_type) as [info|] eqn:Ei; [|done].
  case_decide; [done|]. intros [= <-].
  exists u, p, info. split_and!; try done. lia.
Qed.

(** An application whose flat type is a key of its project's dictionary
    stays so through any sequence of operations. *)
Lemma run_key (ops : list Op) (w : World) (a : nat) (app : Application) (p : BTOProject) :
  apps w !! a = Some app →
  projects w !! app_BTOProject app = Some p →
  is_Some (flatTypes p !! chosen_flat_type app) →
  ∃ app' p', apps (run w ops) !! a = Some app' ∧
             app_BTOProject app' = app_BTOProject app ∧
             chosen_flat_type app' = chosen_flat_type app ∧
             projects (run w ops) !! app_BTOProject app' = Some p' ∧
             is_Some (flatTypes p' !! chosen_flat_type app').
Proof.
  revert w app p. induction ops as [|op ops IH]; intros w app p Ha Hp Hk.
  - exists app, p. by split_and!.
  - destruct (step_app w op a app Ha) as (app1 & Ha1 & _ & Hproj & Hft & _).
    destruct (step_project w op _ p Hp) as (p1 & Hp1 & _ & _ & Hkeys & _).
    rewrite run_cons.
    destruct (IH (step w op) app1 p1) as (app' & p' & ? & ? & ? & ? & ?).
    + done.
    + by rewrite Hproj.
    + rewrite Hft. by apply Hkeys.
    + exists app', p'. split_and!; congruence.
Qed.

(** C10.  The approve branch subscripts the dictionary without a test:
    on a Pending application of the manager's own project whose flat
    type is not a key, approveOrRejectApplication raises KeyError.  An
    application that applyForProject created had its flat type as a key
    with units left; after any sequence of operations the application is
    still in the store with the same project and flat type, the flat
    type is still a key of that project's dictionary, and neither
    decision of any manager on it raises KeyError. *)
Theorem approve_subscript_defined (w w1 : World) (self project : nat)
    (flat_type : string) (ops : list Op) :
  applyForProject w self project flat_type = Returned w1 Submitted →
  let a := length (apps w) in
  let w2 := run w1 ops in
  (∀ w0 mgr a0 app p,
     apps w0 !! a0 = Some app → projects w0 !! app_BTOProject app = Some p →
     manager p = Some mgr → applicationStatus app = "Pending" →
     flatTypes p !! chosen_flat_type app = None →
     approveOrRejectApplication w0 mgr a0 true = KeyError) ∧
  (∃ p info, projects w !! project = Some p ∧
             flatTypes p !! flat_type = Some info ∧ (units info > 0)%Z) ∧
  (∃ app p info, apps w2 !! a = Some app ∧
                 app_BTOProject app = project ∧ chosen_flat_type app = flat_type ∧
                 projects w2 !! project = Some p ∧
                 flatTypes p !! flat_type = Some info) ∧
  (∀ mgr decision, approveOrRejectApplication w2 mgr a decision ≠ KeyError).
Proof.
  intros Hr a w2.
  destruct (applyForProject_Submitted w w1 self project flat_type Hr)
    as (u & p & info & Hu & Hp & Hinfo & Hpos & Hw1).
  assert (Hnew : apps w1 !! a
                 = Some (mkApplication self project "Pending" flat_type false)).
  { subst w1 a. unfold world_after_apply. simpl.
    by rewrite lookup_app_r, Nat.sub_diag by done. }
  assert (Hp1 : projects w1 !! project = Some p) by (by subst w1).
  destruct (run_key ops w1 a _ p Hnew Hp1) as (app' & p' & Ha' & Hproj & Hft & Hp' & Hk').
  { simpl. by rewrite Hinfo. }
  simpl in Hproj, Hft. rewrite Hproj, Hft in *. destruct Hk' as [info' Hinfo'].
  split_and!.
  - intros w0 mgr a0 app p0 Ha0 Hp0 Hm Hs Hnokey.
    unfold approveOrRejectApplication. rewrite Ha0, Hp0.
    rewrite decide_False by (intros ?; congruence).
    rewrite decide_False by (intros ?; congruence).
    by rewrite Hnokey.
  - by exists p, info.
  - by exists app', p', info'.
  - intros mgr decision. unfold approveOrRejectApplication. subst w2.
    rewrite Ha', Hproj, Hp', Hft, Hinfo'. by case_op.
Qed.

(** The first scenario: the application to Acacia, then a booking that
    takes the last unit; the manager's approval then fails for want of
    units, it does not raise. *)
Lemma approve_subscript_defined_witness :
  approveOrRejectApplication
    (run (scene handling [1%nat] 1 [application_A "Pending" false])
         [UpdateFlatAvailability 1 0 "2-Room" 7])
    0 0 true ≠ KeyError.
Proof.
  refine (proj2 (proj2 (proj2
    (approve_subscript_defined (scene handling [1%nat] 1 [])
       (scene handling [1%nat] 1 [application_A "Pending" false]) 0 0 "2-Room"
       [UpdateFlatAvailability 1 0 "2-Room" 7] _))) 0%nat true).
  vm_compute. reflexivity.
Defined.

Example approval_after_the_last_unit_went :
  approveOrRejectApplication
    (run (scene handling [1%nat] 1 [application_A "Pending" false])
         [UpdateFlatAvailability 1 0 "2-Room" 7])
    0 0 true
  = Returned (scene handling [1%nat] 0 [application_A "Pending" false]) NotEnoughUnits.
Proof. vm_compute. reflexivity. Qed.

(** ** Officer slots *)

(** C9, counterexample: load_projects appends both officers the row
    names to a project with one slot. *)
Lemma loaded_officers_exceed_slot : ¬ officers_never_exceed_slot.
Proof.
  intros H.
  assert (Hp : projects loaded_world !! 0%nat
               = Some (mkProject 1 "Acacia Breeze" "Yishun"
                         (<["3-Room" := mkFlatInfo 3 450000]>
                            (<["2-Room" := mkFlatInfo 2 350000]> ∅))
                         (Some 0%nat) [0%nat; 1%nat] true 1))
    by (vm_compute; reflexivity).
  apply (H [] [mkUserRow "Jessica" "S5678901G" 26 "Married"] two_officers
           [acacia_row] []) in Hp.
  unfold within_slot in Hp. simpl in Hp. lia.
Qed.

(** The manager menu takes any integer for the slots: a project created
    with a negative capacity has more officers (none) than slots. *)
Example created_with_negative_slot :
  ∃ p, projects (step (main_init [] [mkUserRow "Jessica" "S5678901G" 26 "Married"] [] [])
                      (CreateBTOProject 0 "Acacia" "Yishun" 1 350000 1 450000 (-1)))
         !! 0%nat = Some p ∧ ¬ within_slot p.
Proof. eexists. split; [vm_compute; reflexivity|]. unfold within_slot. simpl. lia. Qed.

(** Only choice 2 of the manager menu adds a project; it has no officer
    and the capacity that was typed. *)
Lemma step_new_project (w : World) (op : Op) (i : nat) (p' : BTOProject) :
  projects w !! i = None →
  projects (step w op) !! i = Some p' →
  officers p' = [] ∧
  ∃ self pname nbhd t1u t1p t2u t2p,
    op = CreateBTOProject self pname nbhd t1u t1p t2u t2p (officerSlot p').
Proof.
  intros Hnone.
  destruct op; unfold_op; case_op; try (rewrite Hnone; discriminate).
  all: try match goal with
       | |- context [<[?j := _]> (projects _) !! ?k] =>
           destruct (decide (j = k)) as [->|?];
           [congruence|rewrite list_lookup_insert_ne by done; rewrite Hnone; discriminate]
       end.
  intros Hl. apply lookup_app_Some in Hl as [Hl|[Hlen Hl]]; [congruence|].
  apply list_lookup_singleton_Some in Hl as [Hz <-].
  split; [done|]. by eexists _, _, _, _, _, _, _.
Qed.

Lemma step_within_slot (w : World) (op : Op) :
  creates_within_slot op → officers_within_slot w → officers_within_slot (step w op).
Proof.
  intros Hop Hw i p' Hp'.
  destruct (projects w !! i) as [p|] eqn:Hp.
  - destruct (step_project w op i p Hp) as (p1 & Hp1 & _ & _ & _ & Hslot & _).
    assert (p1 = p') as -> by congruence. apply Hslot. by eapply Hw.
  - destruct (step_new_project w op i p' Hp Hp') as (Hoff & ? & ? & ? & ? & ? & ? & ? & ->).
    unfold within_slot. rewrite Hoff. simpl in *. lia.
Qed.

Lemma run_within_slot (ops : list Op) (w : World) :
  Forall creates_within_slot ops → officers_within_slot w →
  officers_within_slot (run w ops).
Proof.
  revert w. induction ops as [|op ops IH]; intros w Hops Hw; [done|].
  inversion_clear Hops. rewrite run_cons. apply IH; [done|]. by apply step_within_slot.
Qed.

(** C9, as amended.  approveOrRejectHDBOfficerRegistration on an officer
    of the store who registered for a project of the store: a manager
    who is not the project's manager, or a registration that is not
    Pending, leaves the world as it was.  Otherwise an approval with
    [len(project.officers) >= officerSlot] prints NoOfficerSlots (the
    specification's SlotExhausted) and leaves the world as it was, and
    an approval with [len(project.officers) < officerSlot] appends the
    officer to the project's list, sets [handling_project] to the
    project and the status to Approved, the list staying within the
    capacity.  Every sequence of operations that creates no project of
    negative capacity keeps every project within its capacity if every
    project was within it at the start. *)
Theorem officer_registration_spec (w : World) (self off : nat) (decision : bool)
    (u : Applicant) (o : OfficerPart) (project : nat) (p : BTOProject) :
  users w !! off = Some u → officer u = Some o →
  registered_project o = Some project →
  projects w !! project = Some p →
  let r := approveOrRejectHDBOfficerRegistration w self off decision in
  let w' := world_after_officer_approval w off project u o p in
  (manager p ≠ Some self → r = Returned w NotManager) ∧
  (manager p = Some self → registration_status o ≠ Some "Pending" →
     r = Returned w RegistrationNotPending) ∧
  (manager p = Some self → registration_status o = Some "Pending" → decision = true →
     ((Z.of_nat (length (officers p)) >= officerSlot p)%Z →
        r = Returned w NoOfficerSlots) ∧
     ((Z.of_nat (length (officers p)) < officerSlot p)%Z →
        r = Returned w' OfficerApproved ∧
        (officers <$> projects w' !! project) = Some (officers p ++ [off])%list ∧
        (officer <$> users w' !! off)
          = Some (Some (mkOfficerPart (Some project) (Some "Approved") (Some project))) ∧
        (officers_within_slot w → officers_within_slot w'))) ∧
  (manager p = Some self → registration_status o = Some "Pending" → decision = false →
     r = Returned (with_users w (<[off := set_officer u
                     (mkOfficerPart (handling_project o) (Some "Rejected")
                                    (registered_project o))]> (users w)))
                  OfficerRejected) ∧
  (∀ ops, Forall creates_within_slot ops → officers_within_slot w →
          officers_within_slot (run w ops)).
Proof.
  intros Hu Ho Hreg Hp r w'.
  assert (Hexec : exec w (ApproveOrRejectHDBOfficerRegistration self off decision) = r)
    by done.
  subst r w'.
  unfold approveOrRejectHDBOfficerRegistration, world_after_officer_approval in *.
  rewrite Hu, Ho, Hreg, Hp in *. split_and!.
  - intros Hm. by rewrite decide_True.
  - intros Hm Hs. rewrite decide_False by (intros ?; congruence).
    by rewrite decide_True.
  - intros Hm Hs ->.
    rewrite decide_False in * by (intros ?; congruence).
    rewrite decide_False in * by (intros ?; congruence).
    split.
    + intros Hfull. by rewrite decide_True.
    + intros Hfree. rewrite decide_False in * by lia.
      simpl. split_and!.
      * done.
      * rewrite list_lookup_insert_eq by (by eapply lookup_lt_Some). done.
      * rewrite list_lookup_insert_eq by (by eapply lookup_lt_Some). done.
      * intros Hw.
        pose proof (step_within_slot w
                      (ApproveOrRejectHDBOfficerRegistration self off true) I Hw) as Hw'.
        unfold step in Hw'. by rewrite Hexec in Hw'.
  - intros Hm Hs ->.
    rewrite decide_False by (intros ?; congruence).
    by rewrite decide_False by (intros ?; congruence).
  - intros ops. apply run_within_slot.
Qed.

(** The third scenario of the specification: Acacia has one slot and no
    officer; O registered for it and the manager approves. *)
Lemma officer_registration_spec_witness :
  approveOrRejectHDBOfficerRegistration (scene registered [] 1 []) 0 1 true
    = Returned (scene handling [1%nat] 1 []) OfficerApproved.
Proof.
  pose proof (officer_registration_spec (scene registered [] 1 []) 0 1 true
                (officer_O registered) registered 0 (acacia 1 [])
                eq_refl eq_refl eq_refl eq_refl) as (_ & _ & H & _).
  destruct (H eq_refl eq_refl eq_refl) as [_ Hfree].
  destruct (Hfree ltac:(simpl; lia)) as [Hr _]. exact Hr.
Defined.

(** The same registration when another officer (object 7) already
    fills the one slot. *)
Example second_officer_finds_no_slot :
  approveOrRejectHDBOfficerRegistration (scene registered [7%nat] 1 []) 0 1 true
    = Returned (scene registered [7%nat] 1 []) NoOfficerSlots.
Proof. vm_compute. reflexivity. Qed.

(** * Further properties of the code *)

(** ** Requesting a withdrawal *)

(** X1.  requestWithdrawal by an applicant of the store.  With no application
    it prints NoApplications; an input that is not a number gives
    InvalidInput and a number outside 1..len(applications) gives
    InvalidChoice; the chosen application is refused when it is
    Unsuccessful or Booked (CannotWithdraw).  In all these cases the
    world is as it was.  Otherwise the flag of the chosen application,
    and nothing else, is set: its status stays what it was. *)
Theorem requestWithdrawal_spec (w : World) (self : nat) (choice : option Z)
    (u : Applicant) :
  users w !! self = Some u →
  let r := requestWithdrawal w self choice in
  (applications u = [] → r = Returned w NoApplications) ∧
  (applications u ≠ [] →
     (choice = None → r = Returned w InvalidInput) ∧
     (∀ c, choice = Some c →
        (c < 1 ∨ c > Z.of_nat (length (applications u)))%Z →
        r = Returned w InvalidChoice) ∧
     (∀ c a app, choice = Some c → (1 <= c)%Z →
        applications u !! Z.to_nat (c - 1) = Some a → apps w !! a = Some app →
        (applicationStatus app = "Unsuccessful" ∨ applicationStatus app = "Booked" →
           r = Returned w CannotWithdraw) ∧
        (applicationStatus app ≠ "Unsuccessful" → applicationStatus app ≠ "Booked" →
           r = Returned (store_flag w a app true) WithdrawalRequested ∧
           status_of (store_flag w a app true) a = Some (applicationStatus app) ∧
           flag_of (store_flag w a app true) a = Some true ∧
           (∀ a', a' ≠ a → apps (store_flag w a app true) !! a' = apps w !! a') ∧
           projects (store_flag w a app true) = projects w ∧
           users (store_flag w a app true) = users w))).
Proof.
  intros Hu r. subst r. unfold requestWithdrawal. rewrite Hu. split.
  - intros He. by rewrite decide_True.
  - intros Hne. rewrite decide_False by done. split_and!.
    + by intros ->.
    + intros c -> Hc. rewrite decide_False; [done|lia].
    + intros c a app -> Hc Ha Happ.
      apply lookup_lt_Some in Ha as Hlt.
      rewrite decide_True by lia. rewrite Ha, Happ. split.
      * intros Hs. rewrite decide_True; [done|]. by apply elem_of_pair.
      * intros H1 H2. rewrite decide_False by (rewrite elem_of_pair; tauto).
        split_and!; try done.
        -- unfold status_of. by rewrite lookup_store_flag.
        -- unfold flag_of. by rewrite lookup_store_flag.
        -- intros a' Hne'. unfold store_flag. simpl.
           by rewrite list_lookup_insert_ne.
Qed.

(** A's Successful application, chosen as number 1. *)
Lemma requestWithdrawal_spec_witness :
  requestWithdrawal (scene handling [1%nat] 1 [application_A "Successful" false]) 0
                    (Some 1%Z)
    = Returned (scene handling [1%nat] 1 [application_A "Successful" true])
               WithdrawalRequested.
Proof.
  pose proof (requestWithdrawal_spec
                (scene handling [1%nat] 1 [application_A "Successful" false]) 0
                (Some 1%Z) (applicant_A [application_A "Successful" false]) eq_refl)
    as [_ H].
  destruct (H ltac:(discriminate)) as (_ & _ & Hc).
  destruct (Hc 1%Z 0%nat (application_A "Successful" false) eq_refl ltac:(lia)
               eq_refl eq_refl) as [_ Hset].
  exact (proj1 (Hset ltac:(discriminate) ltac:(discriminate))).
Defined.

(** ** Registering as an officer *)

Lemma existsb_elem_of {A} (f : A → bool) (l : list A) :
  existsb f l = true ↔ ∃ x, x ∈ l ∧ f x = true.
Proof.
  rewrite existsb_exists. split; intros (x & Hx & Hf); exists x;
    (split; [by apply list_elem_of_In|done]).
Qed.

(** X2.  registerToProject by an officer of the store.  An officer who
    handles a project is refused (AlreadyHandling); so is one who has an
    application to the project in any status (AlreadyApplied); both
    leave the world as it was.  Otherwise the registration is stored as
    Pending for the project, replacing whatever registration the officer
    had, and nothing else changes. *)
Theorem registerToProject_spec (w : World) (self project : nat)
    (u : Applicant) (o : OfficerPart) :
  users w !! self = Some u → officer u = Some o →
  let r := registerToProject w self project in
  let w' := with_users w (<[self := set_officer u
              (mkOfficerPart None (Some "Pending") (Some project))]> (users w)) in
  (is_Some (handling_project o) → r = Returned w AlreadyHandling) ∧
  (handling_project o = None →
     ((∃ a app, a ∈ applications u ∧ apps w !! a = Some app ∧
                app_BTOProject app = project) →
        r = Returned w AlreadyApplied) ∧
     ((∀ a app, a ∈ applications u → apps w !! a = Some app →
                app_BTOProject app ≠ project) →
        r = Returned w' RegistrationSubmitted ∧
        (officer <$> users w' !! self)
          = Some (Some (mkOfficerPart None (Some "Pending") (Some project))) ∧
        (applications <$> users w' !! self) = Some (applications u) ∧
        (∀ i, i ≠ self → users w' !! i = users w !! i) ∧
        projects w' = projects w ∧ apps w' = apps w)).
Proof.
  intros Hu Ho r w'. subst r w'. unfold registerToProject. rewrite Hu, Ho. split.
  - intros Hh. by rewrite decide_True.
  - intros Hh. rewrite decide_False by (rewrite Hh; by intros [? ?]). split.
    + intros (a & app & Ha & Happ & Hproj).
      assert (He : existsb (λ a, match apps w !! a with
                                 | Some app => bool_decide (app_BTOProject app = project)
                                 | None => false
                                 end) (applications u) = true).
      { apply existsb_elem_of. exists a. split; [done|].
        rewrite Happ. by apply bool_decide_eq_true. }
      by rewrite He.
    + intros Hnone.
      assert (He : existsb (λ a, match apps w !! a with
                                 | Some app => bool_decide (app_BTOProject app = project)
                                 | None => false
                                 end) (applications u) = false).
      { apply not_true_is_false. rewrite existsb_elem_of.
        intros (a & Ha & Hf). destruct (apps w !! a) as [app|] eqn:Happ; [|done].
        apply bool_decide_eq_true in Hf. by eapply Hnone. }
      rewrite He, Hh. unfold with_users. simpl.
      rewrite list_lookup_insert_eq by (by eapply lookup_lt_Some).
      split_and!; try done.
      intros i Hi. by rewrite list_lookup_insert_ne.
Qed.

(** O, whose registration for Acacia is Pending, registers again. *)
Lemma registerToProject_spec_witness :
  registerToProject (scene registered [] 1 []) 1 0
    = Returned (scene registered [] 1 []) RegistrationSubmitted.
Proof.
  pose proof (registerToProject_spec (scene registered [] 1 []) 1 0
                (officer_O registered) registered eq_refl eq_refl) as [_ H].
  destruct (H eq_refl) as [_ Hfree].
  exact (proj1 (Hfree ltac:(intros a app Ha; inversion Ha))).
Defined.

(** ** Bookings add up, and a negative booking restocks *)

(** X3.  Two calls of reduceUnits on a flat type, the second with a count
    that is not negative, leave what one call with the sum leaves. *)
Theorem reduceUnits_twice (p : BTOProject) (flat_type : string) (n m : Z) :
  (0 <= m)%Z →
  reduceUnits (reduceUnits p flat_type n) flat_type m = reduceUnits p flat_type (n + m).
Proof.
  intros Hm. unfold reduceUnits at 2 3.
  destruct (flatTypes p !! flat_type) as [info|] eqn:E.
  - unfold reduceUnits. simpl. rewrite lookup_insert_eq. simpl.
    unfold set_flatTypes. simpl. rewrite insert_insert_eq.
    do 3 f_equal. repeat case_decide; lia.
  - unfold reduceUnits. by rewrite E.
Qed.

Lemma reduceUnits_twice_witness :
  reduceUnits (reduceUnits (acacia 10 []) "2-Room" 12) "2-Room" 3
    = reduceUnits (acacia 10 []) "2-Room" (12 + 3).
Proof. apply (reduceUnits_twice (acacia 10 []) "2-Room" 12 3). lia. Defined.

(** X4.  The officer menu passes on whatever integer was typed as the number
    of units booked.  When the officer handles the project and the
    number is negative, updateFlatAvailability raises the unit count of
    a flat type of the dictionary by that many units; the other
    projects and the applications are as they were. *)
Theorem negative_booking_adds_units (w : World) (self project : nat)
    (flat_type : string) (number_booked : Z)
    (u : Applicant) (o : OfficerPart) (p : BTOProject) (info : FlatInfo) :
  users w !! self = Some u → officer u = Some o →
  handling_project o = Some project →
  projects w !! project = Some p →
  flatTypes p !! flat_type = Some info →
  (0 <= units info)%Z → (number_booked < 0)%Z →
  let w' := step w (UpdateFlatAvailability self project flat_type number_booked) in
  units_of w' project flat_type = Some (units info - number_booked)%Z ∧
  (units info < units info - number_booked)%Z ∧
  (∀ i, i ≠ project → projects w' !! i = projects w !! i) ∧
  apps w' = apps w.
Proof.
  intros Hu Ho Hh Hp Hinfo Hpos Hneg w'. subst w'.
  unfold step, exec, updateFlatAvailability. rewrite Hu, Hp, Ho.
  rewrite decide_False by (intros ?; congruence).
  unfold units_of, with_projects. simpl.
  rewrite list_lookup_insert_eq by (by eapply lookup_lt_Some). simpl.
  split_and!.
  - unfold reduceUnits. rewrite Hinfo. simpl. rewrite lookup_insert_eq. simpl.
    f_equal. case_decide; lia.
  - lia.
  - intros i Hi. by rewrite list_lookup_insert_ne.
  - done.
Qed.

(** O, who handles Acacia with its one unit, books minus four. *)
Lemma negative_booking_adds_units_witness :
  units_of (step booking_world (UpdateFlatAvailability 1 0 "2-Room" (-4))) 0 "2-Room"
    = Some 5%Z.
Proof.
  refine (proj1 (negative_booking_adds_units booking_world 1 0 "2-Room" (-4)
            (officer_O handling) handling (acacia 1 [1%nat]) (mkFlatInfo 1 350000)
            eq_refl eq_refl eq_refl eq_refl _ _ _)).
  - vm_compute. reflexivity.
  - simpl. lia.
  - lia.
Defined.

(** ** What the loader leaves *)

Lemma foldl_invariant {A B} (P : A → Prop) (f : A → B → A) (l : list B) (a : A) :
  P a → (∀ a b, P a → P (f a b)) → P (foldl f a l).
Proof.
  intros Ha Hf. revert a Ha. induction l as [|b l IH]; intros a Ha; simpl; auto.
Qed.

(** A property of worlds that creating a project and attaching an
    officer keep is kept by load_projects. *)
Lemma load_projects_invariant (P : World → Prop) (officer_list : list nat) :
  (∀ w pname nbhd ft mgr slot, P w →
     P (mkWorld (users w) (managers w)
                (projects w ++ [BTOProject_init (project_counter w) pname nbhd ft mgr slot])
                (apps w) (controller_applications w) (controller_projects w)
                (project_counter w + 1)%Z)) →
  (∀ w proj off, P w → P (attach_officer w proj off)) →
  ∀ rows w, P w → P (load_projects officer_list w rows).
Proof.
  intros Hnew Hattach rows w Hw. unfold load_projects.
  apply foldl_invariant; [done|]. clear w Hw. intros w row Hw.
  unfold load_project_row. case_decide; [by apply Hnew|].
  apply foldl_invariant; [by apply Hnew|]. intros w2 oname Hw2.
  apply foldl_invariant; [done|]. intros w3 off Hw3.
  destruct (users w3 !! off); [|done]. case_decide; [by apply Hattach|done].
Qed.

(** The world [main] starts the menu loop in is the loaded one but for
    the managers' lists and the project controller's list. *)
Lemma main_init_stores (arows mrows orows : list UserRow) (prows : list ProjectRow) :
  ∃ w1, w1 = load_projects (seq (length (load_applicants arows))
                                (length (load_officers orows)))
               (mkWorld (load_applicants arows ++ load_officers orows)
                        (load_managers mrows) [] [] [] [] 1) prows ∧
        users (main_init arows mrows orows prows) = users w1 ∧
        projects (main_init arows mrows orows prows) = projects w1 ∧
        apps (main_init arows mrows orows prows) = apps w1 ∧
        project_counter (main_init arows mrows orows prows) = project_counter w1 ∧
        controller_projects (main_init arows mrows orows prows)
          = seq 0 (length (projects w1)).
Proof. eexists. split; [reflexivity|]. by split_and!. Qed.

(** ** No application is ever Booked *)

Lemma main_init_apps (arows mrows orows : list UserRow) (prows : list ProjectRow) :
  apps (main_init arows mrows orows prows) = [].
Proof.
  destruct (main_init_stores arows mrows orows prows) as (w1 & -> & _ & _ & -> & _).
  apply (load_projects_invariant (λ w, apps w = [])); try done.
  intros w proj off Hw. unfold attach_officer.
  by destruct (users w !! off), (projects w !! proj).
Qed.

Lemma performed_not_Booked (s s' : string) :
  rtc performed s s' → s ≠ "Booked" → s' ≠ "Booked".
Proof.
  induction 1 as [|x y z Hxy _ IH]; [done|]. intros _. apply IH.
  by destruct Hxy.
Qed.

Lemma reachable_not_Booked (w : World) (a : nat) :
  reachable w → status_of w a ≠ Some "Booked".
Proof.
  intros (arows & mrows & orows & prows & ops & ->) Hb.
  apply run_status_new in Hb.
  - by apply performed_not_Booked in Hb.
  - unfold status_of. by rewrite main_init_apps.
Qed.

Lemma find_all_false {A} (f : A → bool) (l : list A) :
  (∀ x, x ∈ l → f x = false) → find f l = None.
Proof.
  induction l as [|x l IH]; [done|]. intros Hf. simpl.
  rewrite (Hf x) by left. apply IH. intros y Hy. apply Hf. by right.
Qed.

(** X5.  In every world the program reaches no application is Booked, so
    generateReceipt finds no Booked application for anybody and
    generateApplicantReport prints no line, whatever list it is given. *)
Theorem receipt_and_report_are_empty (w : World) :
  reachable w →
  (∀ a, status_of w a ≠ Some "Booked") ∧
  (∀ who, generateReceipt w who = None) ∧
  (∀ l, generateApplicantReport w l = []).
Proof.
  intros Hw. split_and!.
  - intros a. by apply reachable_not_Booked.
  - intros who. unfold generateReceipt.
    destruct (users w !! who) as [u|]; [|done]. simpl.
    apply find_all_false. intros a _. apply bool_decide_eq_false.
    by apply reachable_not_Booked.
  - intros l. unfold generateApplicantReport.
    induction l as [|a l IH]; [done|].
    rewrite filter_cons_False; [done|]. by apply reachable_not_Booked.
Qed.

Lemma session_reachable : reachable (run session_start session).
Proof. unfold reachable, session_start. by eexists _, _, _, _, _. Qed.

Lemma receipt_and_report_are_empty_witness :
  generateReceipt (run session_start session) 0 = None ∧
  generateApplicantReport (run session_start session)
    (controller_applications (run session_start session)) = [].
Proof.
  destruct (receipt_and_report_are_empty (run session_start session) session_reachable)
    as (_ & Hr & Hl).
  split; [apply Hr|apply Hl].
Defined.

(** ** Project identifiers *)

Lemma find_seq_first (f : nat → bool) (n s i : nat) :
  s ≤ i < s + n → f i = true → (∀ j, s ≤ j < i → f j = false) →
  find f (seq s n) = Some i.
Proof.
  revert s. induction n as [|n IH]; intros s Hi Hf Hlt; [lia|]. simpl.
  destruct (decide (s = i)) as [->|Hne].
  - by rewrite Hf.
  - rewrite (Hlt s) by lia. apply IH; [lia|done|]. intros j Hj. apply Hlt. lia.
Qed.

Lemma main_init_ids_sequential (arows mrows orows : list UserRow)
    (prows : list ProjectRow) :
  ids_sequential (main_init arows mrows orows prows).
Proof.
  destruct (main_init_stores arows mrows orows prows)
    as (w1 & Hw1 & _ & Hp & _ & Hc & Hctl).
  unfold ids_sequential. rewrite Hp, Hc, Hctl.
  cut (project_counter w1 = (Z.of_nat (length (projects w1)) + 1)%Z ∧
       ∀ i p, projects w1 !! i = Some p → projectID p = (Z.of_nat i + 1)%Z).
  { intros [? ?]. by split_and!. }
  subst w1.
  apply (load_projects_invariant
           (λ w, project_counter w = (Z.of_nat (length (projects w)) + 1)%Z ∧
                 ∀ i p, projects w !! i = Some p → projectID p = (Z.of_nat i + 1)%Z)).
  - intros w pname nbhd ft mgr slot [Hcount Hid]. simpl. split.
    + rewrite length_app. simpl. lia.
    + intros i p Hl. apply lookup_app_Some in Hl as [Hl|[Hlen Hl]]; [by apply Hid|].
      apply list_lookup_singleton_Some in Hl as [Hz <-]. simpl. lia.
  - intros w proj off [Hcount Hid]. unfold attach_officer.
    destruct (users w !! off); [|done].
    destruct (projects w !! proj) as [p|] eqn:Hproj; [|done]. simpl.
    rewrite length_insert. split; [done|]. intros i q Hl.
    destruct (decide (proj = i)) as [->|Hne].
    + rewrite list_lookup_insert_eq in Hl by (by eapply lookup_lt_Some).
      injection Hl as <-. simpl. by apply Hid.
    + rewrite list_lookup_insert_ne in Hl by done. by apply Hid.
  - simpl. split; [done|]. intros i p Hl. by rewrite lookup_nil in Hl.
Qed.

(** An assignment to a stored project that keeps its identifier keeps
    the numbering. *)
Lemma ids_sequential_insert (w : World) (us : list Applicant) (ms : list HDBManager)
    (l : list Application) (ca : list nat) (i : nat) (p p' : BTOProject) :
  ids_sequential w → projects w !! i = Some p → projectID p' = projectID p →
  ids_sequential (mkWorld us ms (<[i := p']> (projects w)) l ca
                          (controller_projects w) (project_counter w)).
Proof.
  intros (Hc & Hid & Hctl) Hp Hsame. unfold ids_sequential. simpl.
  rewrite length_insert. split_and!; try done.
  intros j q Hl. destruct (decide (i = j)) as [->|Hne].
  - rewrite list_lookup_insert_eq in Hl by (by eapply lookup_lt_Some).
    injection Hl as <-. rewrite Hsame. by apply Hid.
  - rewrite list_lookup_insert_ne in Hl by done. by apply Hid.
Qed.

Lemma reduceUnits_projectID (p : BTOProject) (flat_type : string) (num : Z) :
  projectID (reduceUnits p flat_type num) = projectID p.
Proof. unfold reduceUnits. by destruct (flatTypes p !! flat_type). Qed.

Lemma step_ids_sequential (w : World) (op : Op) :
  ids_sequential w → ids_sequential (step w op).
Proof.
  intros Hw.
  destruct op; unfold_op; case_op; try exact Hw;
    try (eapply ids_sequential_insert; eauto using reduceUnits_projectID; done).
  (* choice 2 of the manager menu *)
  destruct Hw as (Hc & Hid & Hctl). unfold ids_sequential. simpl.
  rewrite length_app, Hctl. simpl. split_and!.
  - lia.
  - intros i p Hl. apply lookup_app_Some in Hl as [Hl|[Hlen Hl]]; [by apply Hid|].
    apply list_lookup_singleton_Some in Hl as [Hz <-]. simpl. lia.
  - by rewrite Nat.add_1_r, seq_S.
Qed.

Lemma reachable_ids_sequential (w : World) : reachable w → ids_sequential w.
Proof.
  intros (arows & mrows & orows & prows & ops & ->).
  generalize (main_init_ids_sequential arows mrows orows prows).
  generalize (main_init arows mrows orows prows). clear.
  induction ops as [|op ops IH]; intros w Hw; [done|].
  rewrite run_cons. apply IH. by apply step_ids_sequential.
Qed.

(** X6.  In every world the program reaches the project at position i of the
    store has identifier i + 1, so no two projects share an identifier;
    findProjectByID returns the project that has the identifier it is
    asked for, and None for a number below 1 or above the number of
    projects. *)
Theorem findProjectByID_spec (w : World) :
  reachable w →
  (∀ i p, projects w !! i = Some p → projectID p = (Z.of_nat i + 1)%Z) ∧
  (∀ i j p q, projects w !! i = Some p → projects w !! j = Some q →
              projectID p = projectID q → i = j) ∧
  (∀ i p, projects w !! i = Some p → findProjectByID w (projectID p) = Some i) ∧
  (∀ pid, (pid < 1 ∨ pid > Z.of_nat (length (projects w)))%Z →
          findProjectByID w pid = None).
Proof.
  intros Hw. destruct (reachable_ids_sequential w Hw) as (Hc & Hid & Hctl).
  split_and!.
  - done.
  - intros i j p q Hp Hq Heq. rewrite (Hid i p Hp), (Hid j q Hq) in Heq. lia.
  - intros i p Hp. unfold findProjectByID. rewrite Hctl.
    apply lookup_lt_Some in Hp as Hlt.
    apply find_seq_first; [lia| |].
    + rewrite Hp. by apply bool_decide_eq_true.
    + intros j Hj. destruct (projects w !! j) as [q|] eqn:Hq; [|done].
      apply bool_decide_eq_false. rewrite (Hid i p Hp), (Hid j q Hq). lia.
  - intros pid Hpid. unfold findProjectByID. apply find_all_false.
    intros i _. destruct (projects w !! i) as [q|] eqn:Hq; [|done].
    apply bool_decide_eq_false. rewrite (Hid i q Hq).
    apply lookup_lt_Some in Hq. lia.
Qed.

Lemma findProjectByID_spec_witness :
  findProjectByID (run session_start session) 2 = Some 1%nat.
Proof.
  destruct (findProjectByID_spec (run session_start session) session_reachable)
    as (_ & _ & Hfind & _).
  refine (Hfind 1%nat (BTOProject_init 2 "Birch" "Bedok"
            (<["3-Room" := mkFlatInfo 5 400000]> (<["2-Room" := mkFlatInfo 5 300000]> ∅))
            (Some 0%nat) 2) _).
  vm_compute. reflexivity.
Defined.

(** ** One active application for each applicant *)

(** No operation adds or removes a user; the list of applications of a
    user is left alone, or applyForProject appends the new application
    after finding no active one. *)
Lemma step_user_applications (w : World) (op : Op) (i : nat) (u : Applicant) :
  users w !! i = Some u →
  ∃ u', users (step w op) !! i = Some u' ∧
        (applications u' = applications u ∨
         (applications u' = (applications u ++ [length (apps w)])%list ∧
          filter (λ a, is_active w a = true) (applications u) = [] ∧
          length (apps (step w op)) = S (length (apps w)))).
Proof.
  intros Hu.
  destruct op; unfold_op; case_op; try (exists u; by auto).
  all: match goal with
       | |- context [<[?j := _]> (users _) !! ?k] =>
           lookup_store j k; [|exists u; by auto]
       end.
  all: eexists; (split; [reflexivity|]); simplify_eq; simpl; auto.
  right. split_and!; try done. rewrite length_app. simpl. lia.
Qed.

(** An application that is active after an operation was active before
    it. *)
Lemma step_is_active (w : World) (op : Op) (a : nat) :
  (a < length (apps w))%nat → is_active (step w op) a = true → is_active w a = true.
Proof.
  intros Hlt. destruct (lookup_lt_is_Some_2 _ _ Hlt) as [app Ha].
  destruct (step_app w op a app Ha) as (app' & Ha' & _ & _ & _ & Hst).
  rewrite !is_active_status. unfold status_of. rewrite Ha, Ha'. simpl.
  destruct Hst as [->|Hst]; [done|].
  destruct Hst; intros [[=]|[=]]; auto.
Qed.

Lemma step_apps_length (w : World) (op : Op) :
  (length (apps w) ≤ length (apps (step w op)))%nat.
Proof.
  destruct (length (apps w)) as [|n] eqn:Hn; [lia|].
  assert (Hlt : (n < length (apps w))%nat) by lia.
  destruct (lookup_lt_is_Some_2 _ _ Hlt) as [app Ha].
  destruct (step_app w op n app Ha) as (app' & Ha' & _).
  apply lookup_lt_Some in Ha'. lia.
Qed.

Lemma filter_length_le {A} (P Q : A → Prop) `{!∀ x, Decision (P x)}
    `{!∀ x, Decision (Q x)} (l : list A) :
  (∀ x, x ∈ l → P x → Q x) → (length (filter P l) ≤ length (filter Q l))%nat.
Proof.
  induction l as [|x l IH]; intros HPQ; [done|].
  assert (IH' : (length (filter P l) ≤ length (filter Q l))%nat).
  { apply IH. intros y Hy. apply HPQ. by right. }
  rewrite !filter_cons. destruct (decide (P x)) as [HP|HP].
  - rewrite decide_True by (apply HPQ; [left|done]). simpl. lia.
  - destruct (decide (Q x)); simpl; lia.
Qed.

Lemma step_one_active (w : World) (op : Op) : one_active w → one_active (step w op).
Proof.
  intros Hw i u' Hu'.
  assert (Hlen : (length (users (step w op)) = length (users w))%nat).
  { destruct op; unfold_op; case_op; try done; by rewrite length_insert. }
  apply lookup_lt_Some in Hu' as Hlt. rewrite Hlen in Hlt.
  destruct (lookup_lt_is_Some_2 _ _ Hlt) as [u Hu].
  destruct (Hw i u Hu) as [Hvalid Hcount].
  destruct (step_user_applications w op i u Hu) as (u1 & Hu1 & Happs).
  assert (u1 = u') as -> by congruence.
  pose proof (step_apps_length w op) as Hgrow.
  assert (Hold : (length (filter (λ a, is_active (step w op) a = true) (applications u))
                  ≤ length (filter (λ a, is_active w a = true) (applications u)))%nat).
  { apply filter_length_le. intros a Ha. apply step_is_active. by apply Hvalid. }
  destruct Happs as [->|(-> & Hnone & Hnew)].
  - split; [|lia]. intros a Ha. specialize (Hvalid a Ha). lia.
  - split.
    + intros a Ha. apply elem_of_app in Ha as [Ha|Ha].
      * specialize (Hvalid a Ha). lia.
      * apply list_elem_of_singleton in Ha as ->. lia.
    + rewrite filter_app, length_app. rewrite Hnone in Hold. simpl in Hold.
      pose proof (length_filter (λ a, is_active (step w op) a = true)
                    [length (apps w)]) as Hone. simpl in Hone. lia.
Qed.

Lemma lookup_map_inv {A B} (f : A → B) (l : list A) (i : nat) (y : B) :
  map f l !! i = Some y → ∃ x, y = f x.
Proof.
  intros Hl. apply list_elem_of_lookup_2, list_elem_of_In, in_map_iff in Hl
    as (x & <- & _). by exists x.
Qed.

(** The users [main] loads hold no application, handle no project and
    have no registration. *)
Lemma loaded_users_fresh (arows orows : list UserRow) (i : nat) (u : Applicant) :
  (load_applicants arows ++ load_officers orows)%list !! i = Some u →
  applications u = [] ∧
  (officer u = None ∨ officer u = Some (mkOfficerPart None None None)).
Proof.
  intros Hl. apply lookup_app_Some in Hl as [Hl|[_ Hl]];
    apply lookup_map_inv in Hl as [r ->]; simpl; auto.
Qed.

Lemma main_init_one_active (arows mrows orows : list UserRow) (prows : list ProjectRow) :
  one_active (main_init arows mrows orows prows).
Proof.
  destruct (main_init_stores arows mrows orows prows) as (w1 & Hw1 & Hus & _).
  intros i u. rewrite Hus. intros Hu.
  cut (applications u = []).
  { intros ->. split; [by intros a Ha%elem_of_nil|simpl; lia]. }
  revert i u Hu. subst w1.
  apply (load_projects_invariant
           (λ w, ∀ i u, users w !! i = Some u → applications u = [])).
  - done.
  - intros w proj off Hw i u. unfold attach_officer.
    destruct (users w !! off) as [uo|] eqn:Ho; [|by apply Hw].
    destruct (projects w !! proj); [|by apply Hw]. simpl.
    destruct (decide (off = i)) as [->|Hne].
    + rewrite list_lookup_insert_eq by (by eapply lookup_lt_Some).
      intros [= <-]. simpl. by eapply Hw.
    + rewrite list_lookup_insert_ne by done. by apply Hw.
  - simpl. intros i u Hl. by destruct (loaded_users_fresh _ _ _ _ Hl).
Qed.

Lemma reachable_one_active (w : World) : reachable w → one_active w.
Proof.
  intros (arows & mrows & orows & prows & ops & ->).
  generalize (main_init_one_active arows mrows orows prows).
  generalize (main_init arows mrows orows prows). clear.
  induction ops as [|op ops IH]; intros w Hw; [done|].
  rewrite run_cons. apply IH. by apply step_one_active.
Qed.

(** X7.  In every world the program reaches, the applications a user holds
    are in the store and at most one of them is Pending or Successful:
    two active applications of one user are the same application. *)
Theorem one_active_application (w : World) (i : nat) (u : Applicant) :
  reachable w → users w !! i = Some u →
  (length (filter (λ a, is_active w a = true) (applications u)) ≤ 1)%nat ∧
  (∀ a, a ∈ applications u → is_Some (apps w !! a)) ∧
  (∀ a b, a ∈ applications u → b ∈ applications u →
     status_of w a = Some "Pending" ∨ status_of w a = Some "Successful" →
     status_of w b = Some "Pending" ∨ status_of w b = Some "Successful" →
     a = b).
Proof.
  intros Hw Hu. destruct (reachable_one_active w Hw i u Hu) as [Hvalid Hcount].
  split_and!.
  - done.
  - intros a Ha. apply lookup_lt_is_Some_2. by apply Hvalid.
  - intros a b Ha Hb Hsa Hsb.
    assert (Hfa : a ∈ filter (λ a, is_active w a = true) (applications u))
      by (apply list_elem_of_filter; split; [by apply is_active_status|done]).
    assert (Hfb : b ∈ filter (λ a, is_active w a = true) (applications u))
      by (apply list_elem_of_filter; split; [by apply is_active_status|done]).
    destruct (filter (λ a, is_active w a = true) (applications u)) as [|z [|z' l]].
    + by apply elem_of_nil in Hfa.
    + apply list_elem_of_singleton in Hfa, Hfb. congruence.
    + simpl in Hcount. lia.
Qed.

Lemma one_active_application_witness :
  (length (filter (λ a, is_active (run session_start session) a = true) [0%nat]) ≤ 1)%nat.
Proof.
  refine (proj1 (one_active_application (run session_start session) 0
                   (mkApplicant "S1234567A" 36 "Single" "A" [0%nat] None)
                   session_reachable _)).
  vm_compute. reflexivity.
Defined.

(** ** Officers who handle a project *)

Lemma reduceUnits_officers (p : BTOProject) (flat_type : string) (num : Z) :
  officers (reduceUnits p flat_type num) = officers p.
Proof. by destruct (reduceUnits_frame p flat_type num) as (_ & ? & _). Qed.

Lemma step_handling_is_approved (w : World) (op : Op) :
  handling_is_approved w → handling_is_approved (step w op).
Proof.
  intros Hw.
  destruct op; unfold_op; case_op; try exact Hw.
  all: intros i' u' o' p'; cbn [users projects].
  all: repeat match goal with
       | |- context [<[?j := _]> (users _) !! ?k] =>
           destruct (decide (j = k)) as [->|?];
           [ rewrite list_lookup_insert_eq by (by eapply lookup_lt_Some)
           | rewrite list_lookup_insert_ne by done ]
       end.
  all: intros Hu' Ho' Hh'; simplify_eq/=.
  all: try match goal with
       | H : ¬ is_Some (handling_project ?o), H' : handling_project ?o = Some _ |- _ =>
           destruct H; rewrite H'; by eexists
       end.
  all: try match goal with
       | Hu : users _ !! ?i = Some ?u, Ho : officer ?u = Some ?o,
         Hh : handling_project ?o = Some ?p |- _ =>
           destruct (Hw i u o p Hu Ho Hh) as (Hst & pr & Hpr & Hin)
       end.
  all: try congruence.
  all: try (split; [done|]).
  all: try (by exists pr).
  all: try match goal with
       | |- context [<[?j := _]> (projects _) !! ?k] =>
           destruct (decide (j = k)) as [->|?];
           [ rewrite list_lookup_insert_eq by (by eapply lookup_lt_Some)
           | rewrite list_lookup_insert_ne by done; by exists pr ]
       end.
  all: try (eexists; split; [reflexivity|]; simplify_eq/=;
            rewrite ?reduceUnits_officers, ?elem_of_app, ?list_elem_of_singleton;
            by auto).
  - (* the approved officer *)
    rewrite list_lookup_insert_eq by (by eapply lookup_lt_Some).
    eexists. split; [reflexivity|]. simpl. rewrite elem_of_app, list_elem_of_singleton.
    by right.
  - (* a project is created *)
    exists pr. split; [by apply lookup_app_l_Some|done].
Qed.

Lemma main_init_handling_is_approved (arows mrows orows : list UserRow)
    (prows : list ProjectRow) :
  handling_is_approved (main_init arows mrows orows prows).
Proof.
  destruct (main_init_stores arows mrows orows prows) as (w1 & Hw1 & Hus & Hps & _).
  unfold handling_is_approved. rewrite Hus, Hps. subst w1.
  apply (load_projects_invariant handling_is_approved).
  - intros w pname nbhd ft mgr slot Hw i u o p Hu Ho Hh. simpl in *.
    destruct (Hw i u o p Hu Ho Hh) as (Hst & pr & Hpr & Hin).
    split; [done|]. exists pr. split; [by apply lookup_app_l_Some|done].
  - intros w proj off Hw. unfold attach_officer.
    destruct (users w !! off) as [uo|] eqn:Huo; [|done].
    destruct (projects w !! proj) as [q|] eqn:Hq; [|done].
    intros i u o p. simpl.
    destruct (decide (off = i)) as [->|Hne].
    + rewrite list_lookup_insert_eq by (by eapply lookup_lt_Some).
      intros [= <-] [= <-] [= <-]. simpl. split; [done|].
      rewrite list_lookup_insert_eq by (by eapply lookup_lt_Some).
      eexists. split; [reflexivity|]. simpl.
      rewrite elem_of_app, list_elem_of_singleton. by right.
    + rewrite list_lookup_insert_ne by done. intros Hu Ho Hh.
      destruct (Hw i u o p Hu Ho Hh) as (Hst & pr & Hpr & Hin).
      split; [done|]. destruct (decide (proj = p)) as [->|Hnp].
      * rewrite list_lookup_insert_eq by (by eapply lookup_lt_Some).
        eexists. split; [reflexivity|]. simpl. simplify_eq.
        rewrite elem_of_app. by left.
      * rewrite list_lookup_insert_ne by done. by exists pr.
  - intros i u o p Hu Ho Hh. simpl in Hu.
    destruct (loaded_users_fresh _ _ _ _ Hu) as [_ [Hn|Hn]]; rewrite Hn in Ho;
      simplify_eq/=.
Qed.

Lemma reachable_handling_is_approved (w : World) :
  reachable w → handling_is_approved w.
Proof.
  intros (arows & mrows & orows & prows & ops & ->).
  generalize (main_init_handling_is_approved arows mrows orows prows).
  generalize (main_init arows mrows orows prows). clear.
  induction ops as [|op ops IH]; intros w Hw; [done|].
  rewrite run_cons. apply IH. by apply step_handling_is_approved.
Qed.

(** X8.  In every world the program reaches, an officer who handles a
    project has the registration status Approved and is on the officer
    list of that project; registerToProject refuses such an officer
    whatever the project. *)
Theorem handling_officer_is_listed (w : World) (i : nat) (u : Applicant)
    (o : OfficerPart) (p : nat) :
  reachable w → users w !! i = Some u → officer u = Some o →
  handling_project o = Some p →
  registration_status o = Some "Approved" ∧
  (∃ pr, projects w !! p = Some pr ∧ i ∈ officers pr) ∧
  (∀ project, registerToProject w i project = Returned w AlreadyHandling).
Proof.
  intros Hw Hu Ho Hh.
  destruct (reachable_handling_is_approved w Hw i u o p Hu Ho Hh) as [Hst Hpr].
  split_and!; try done.
  intros project. unfold registerToProject. rewrite Hu, Ho.
  rewrite decide_True; [done|]. rewrite Hh. by eexists.
Qed.

Lemma handling_officer_is_listed_witness :
  ∃ pr, projects (run session_start session) !! 0%nat = Some pr ∧ 1%nat ∈ officers pr.
Proof.
  refine (proj1 (proj2 (handling_officer_is_listed (run session_start session) 1
            (mkApplicant "T2109876H" 36 "Single" "Daniel" []
               (Some (mkOfficerPart (Some 0%nat) (Some "Approved") None)))
            (mkOfficerPart (Some 0%nat) (Some "Approved") None) 0
            session_reachable _ eq_refl eq_refl))).
  vm_compute. reflexivity.
Defined.

(** ** The projects an applicant is shown *)

Lemma can_apply_types_check (u : Applicant) (ft : string) :
  flat_type_check u ft = None ↔ ∃ types, can_apply_types u = Some types ∧ ft ∈ types.
Proof.
  rewrite can_apply_types_cases. unfold flat_type_check.
  destruct (is_single u).
  - destruct (decide (age u < 35)%Z).
    + split; [done|by intros (? & [=] & _)].
    + destruct (decide (ft ≠ "2-Room")) as [Hn|He].
      * split; [done|]. intros (? & [= <-] & Hin).
        by apply list_elem_of_singleton in Hin.
      * apply dec_stable in He. split; [|done]. intros _.
        eexists. split; [done|]. subst. by left.
  - destruct (decide (age u < 21)%Z).
    + split; [done|by intros (? & [=] & _)].
    + destruct (decide (ft ∉ ["2-Room"; "3-Room"])) as [Hn|He].
      * split; [done|]. by intros (? & [= <-] & Hin).
      * apply dec_stable in He. split; [|done]. intros _. by eexists.
Qed.

Lemma elem_of_viewProjects (w : World) (u : Applicant) (ps : list nat) (i : nat) :
  i ∈ viewProjects w u ps ↔
  i ∈ ps ∧ ∃ p ft info, projects w !! i = Some p ∧ visibility p = true ∧
                        flat_type_check u ft = None ∧
                        flatTypes p !! ft = Some info ∧ (units info > 0)%Z.
Proof.
  unfold viewProjects. destruct (can_apply_types u) as [types|] eqn:Ht.
  - rewrite list_elem_of_filter. split.
    + intros [Hf Hin]. split; [done|].
      destruct (projects w !! i) as [p|]; [|done].
      apply andb_true_iff in Hf as [Hv Ha].
      apply existsb_elem_of in Ha as (ft & Hft & Hu).
      destruct (flatTypes p !! ft) as [info|] eqn:Hinfo; [|done].
      apply bool_decide_eq_true in Hu.
      exists p, ft, info. split_and!; try done.
      apply can_apply_types_check. by exists types.
    + intros [Hin (p & ft & info & Hp & Hv & Hc & Hinfo & Hu)]. split; [|done].
      rewrite Hp, Hv. simpl. apply existsb_elem_of. exists ft.
      apply can_apply_types_check in Hc as (types' & Ht' & Hft).
      split; [congruence|]. rewrite Hinfo. by apply bool_decide_eq_true.
  - split; [by intros ?%elem_of_nil|].
    intros [_ (p & ft & info & _ & _ & Hc & _)].
    apply can_apply_types_check in Hc as (types' & Ht' & _). congruence.
Qed.

(** X10.  viewProjects lists, of the projects it is given, exactly the
    visible ones that have a unit left in a flat type the viewer passes
    the eligibility tests for; and a viewer of the store who holds no
    active application can apply for such a flat type in every project
    listed: applyForProject prints Submitted. *)
Theorem viewProjects_lists_what_can_be_applied_for (w : World) (self : nat)
    (u : Applicant) (ps : list nat) (i : nat) :
  users w !! self = Some u →
  (i ∈ viewProjects w u ps ↔
   i ∈ ps ∧ ∃ p ft info, projects w !! i = Some p ∧ visibility p = true ∧
                         flat_type_check u ft = None ∧
                         flatTypes p !! ft = Some info ∧ (units info > 0)%Z) ∧
  (i ∈ viewProjects w u ps → ¬ has_active w u →
   ∃ ft w', applyForProject w self i ft = Returned w' Submitted).
Proof.
  intros Hu. split; [apply elem_of_viewProjects|].
  intros Hin Hna.
  apply elem_of_viewProjects in Hin as [_ (p & ft & info & Hp & _ & Hc & Hinfo & Hpos)].
  exists ft. unfold applyForProject. rewrite Hu, Hp.
  rewrite decide_False.
  - rewrite Hc, Hinfo. rewrite decide_False by lia. by eexists.
  - intros Hne. apply Hna. apply filter_nonempty in Hne as (a & Ha & Hact).
    exists a. split; [done|]. by apply is_active_status.
Qed.

Lemma viewProjects_lists_what_can_be_applied_for_witness :
  ∃ ft w', applyForProject (scene handling [1%nat] 1 []) 0 0 ft = Returned w' Submitted.
Proof.
  refine (proj2 (viewProjects_lists_what_can_be_applied_for
                   (scene handling [1%nat] 1 []) 0 (applicant_A []) [0%nat] 0 eq_refl)
                _ _).
  - vm_compute. left.
  - intros (a & Ha & _). inversion Ha.
Defined.

(** X11.  Once the manager of a project has hidden it, viewProjects lists it
    for nobody, and lists every other project as before. *)
Theorem hidden_project_is_not_listed (w : World) (self project : nat)
    (p : BTOProject) :
  projects w !! project = Some p → manager p = Some self →
  let w' := step w (ToggleProjectVisibility self project false) in
  ∀ u ps, (project ∉ viewProjects w' u ps) ∧
          (∀ i, i ≠ project → i ∈ viewProjects w' u ps ↔ i ∈ viewProjects w u ps).
Proof.
  intros Hp Hm w' u ps. subst w'.
  unfold step, exec, toggleProjectVisibility. rewrite Hp.
  rewrite decide_False by (intros ?; congruence). split.
  - rewrite elem_of_viewProjects. intros [_ (q & ft & info & Hq & Hv & _)].
    unfold with_projects in Hq. simpl in Hq.
    rewrite list_lookup_insert_eq in Hq by (by eapply lookup_lt_Some).
    by injection Hq as <-.
  - intros i Hi. rewrite !elem_of_viewProjects. unfold with_projects. simpl.
    by rewrite list_lookup_insert_ne.
Qed.

Lemma hidden_project_is_not_listed_witness :
  0%nat ∉ viewProjects (step (scene handling [1%nat] 1 [])
                             (ToggleProjectVisibility 0 0 false))
                       (applicant_A []) [0%nat].
Proof.
  exact (proj1 (hidden_project_is_not_listed (scene handling [1%nat] 1 []) 0 0
                  (acacia 1 [1%nat]) eq_refl eq_refl (applicant_A []) [0%nat])).
Defined.

(** ** Enquiries *)

Lemma elem_of_list_remove_first (x y : nat) (l : list nat) :
  NoDup l → y ∈ list_remove_first x l ↔ y ∈ l ∧ y ≠ x.
Proof.
  induction 1 as [|z l Hz Hnd IH]; simpl.
  - split; [by intros ?%elem_of_nil|by intros [?%elem_of_nil _]].
  - destruct (decide (z = x)) as [->|Hne].
    + rewrite elem_of_cons. split.
      * intros Hy. split; [by right|]. by intros ->.
      * intros [[->|Hy] Hn]; done.
    + rewrite !elem_of_cons, IH. split.
      * intros [->|[Hy Hn]]; auto.
      * intros [[->|Hy] Hn]; auto.
Qed.

Lemma NoDup_list_remove_first (x : nat) (l : list nat) :
  NoDup l → NoDup (list_remove_first x l).
Proof.
  induction 1 as [|z l Hz Hnd IH]; simpl; [constructor|].
  destruct (decide (z = x)); [done|]. constructor; [|done].
  rewrite elem_of_list_remove_first by done. tauto.
Qed.

Lemma list_remove_first_last (x : nat) (l : list nat) :
  x ∉ l → list_remove_first x (l ++ [x]) = l.
Proof.
  induction l as [|z l IH]; simpl; intros Hx.
  - by rewrite decide_True.
  - rewrite decide_False by (intros ->; apply Hx; left).
    rewrite IH; [done|]. intros ?. apply Hx. by right.
Qed.

Lemma omap_ext_elem {A B} (f g : A → option B) (l : list A) :
  (∀ x, x ∈ l → f x = g x) → omap f l = omap g l.
Proof.
  induction l as [|y l IH]; intros Hfg; [done|].
  change (omap f (y :: l)) with (match f y with Some z => z :: omap f l | None => omap f l end).
  change (omap g (y :: l)) with (match g y with Some z => z :: omap g l | None => omap g l end).
  rewrite (Hfg y) by left. rewrite IH; [done|]. intros x Hx. apply Hfg. by right.
Qed.

Lemma submitEnquiry_ok (E : Enquiries) (self : nat) (msg : string) :
  enquiries_ok E → enquiries_ok (fst (submitEnquiry E self msg)).
Proof.
  intros (Hnd & Hlt & Hown). unfold submitEnquiry, createInquiry, set_enquiries.
  unfold enquiries_ok. simpl.
  assert (Hfresh : length (inquiry_objects E) ∉ controller_inquiries E).
  { intros Hin. apply Hlt in Hin. lia. }
  split_and!.
  - apply NoDup_app. split_and!; [done| |apply NoDup_singleton].
    intros x Hx ->%list_elem_of_singleton. done.
  - intros x. rewrite elem_of_app, list_elem_of_singleton, length_app. simpl.
    intros [Hx| ->]; [apply Hlt in Hx|]; lia.
  - intros i. destruct (Hown i) as [Hndi Hi]. case_decide as Hself.
    + subst i. split.
      * apply NoDup_app. split_and!; [done| |apply NoDup_singleton].
        intros x Hx ->%list_elem_of_singleton. apply Hfresh. by apply Hi.
      * intros x. rewrite !elem_of_app, !list_elem_of_singleton.
        intros [Hx| ->].
        -- destruct (Hi x Hx) as [Hc Ho]. split; [by left|].
           rewrite lookup_app_l; [done|]. by apply Hlt.
        -- split; [by right|]. by rewrite lookup_app_r, Nat.sub_diag.
    + split; [done|]. intros x Hx. destruct (Hi x Hx) as [Hc Ho].
      rewrite elem_of_app. split; [by left|].
      rewrite lookup_app_l; [done|]. by apply Hlt.
Qed.

Lemma deleteEnquiry_ok (E : Enquiries) (self : nat) (choice : option Z) :
  enquiries_ok E → enquiries_ok (fst (deleteEnquiry E self choice)).
Proof.
  intros HE. pose proof HE as (Hnd & Hlt & Hown). unfold deleteEnquiry.
  case_decide; [done|]. destruct choice as [c|]; [|done].
  case_decide; [|done].
  destruct (enquiries E self !! Z.to_nat (c - 1)) as [x|] eqn:Hx; [|done]. simpl.
  apply list_elem_of_lookup_2 in Hx.
  destruct (Hown self) as [Hnds Hs]. destruct (Hs x Hx) as [Hxc Hxo].
  unfold deleteInquiry. rewrite decide_True by done.
  unfold set_enquiries, enquiries_ok. simpl. split_and!.
  - by apply NoDup_list_remove_first.
  - intros y. rewrite elem_of_list_remove_first by done. intros [Hy _]. by apply Hlt.
  - intros i. destruct (Hown i) as [Hndi Hi]. case_decide as Hself.
    + subst i. split; [by apply NoDup_list_remove_first|].
      intros y. rewrite !elem_of_list_remove_first by done.
      intros [Hy Hne]. destruct (Hi y Hy). by split_and!.
    + split; [done|]. intros y Hy. destruct (Hi y Hy) as [Hc Ho].
      split; [|done]. rewrite elem_of_list_remove_first by done.
      split; [done|]. intros ->. rewrite Hxo in Ho. by injection Ho.
Qed.

Lemma replyInquiry_ok (E : Enquiries) (inquiry : nat) (r : string) :
  enquiries_ok E → enquiries_ok (replyInquiry E inquiry r).
Proof.
  intros (Hnd & Hlt & Hown). unfold replyInquiry.
  destruct (inquiry_objects E !! inquiry) as [q|] eqn:Hq; [|done].
  unfold enquiries_ok. simpl. rewrite length_insert. split_and!; try done.
  intros i. destruct (Hown i) as [Hndi Hi]. split; [done|].
  intros x Hx. destruct (Hi x Hx) as [Hc Ho]. split; [done|].
  destruct (decide (inquiry = x)) as [->|Hne].
  - rewrite list_lookup_insert_eq by (by eapply lookup_lt_Some).
    rewrite Hq in Ho. by injection Ho as <-.
  - by rewrite list_lookup_insert_ne.
Qed.

Lemma enquiry_run_ok (ops : list EnquiryOp) : enquiries_ok (enquiry_run ops).
Proof.
  unfold enquiry_run. apply foldl_invariant.
  - split_and!; [constructor|by intros x ?%elem_of_nil|].
    intros i. split; [constructor|by intros x ?%elem_of_nil].
  - intros E [self msg|self choice|inquiry r] HE; simpl.
    + by apply submitEnquiry_ok.
    + by apply deleteEnquiry_ok.
    + by apply replyInquiry_ok.
Qed.

(** X12.  Whatever enquiries were submitted, deleted and answered before: when
    an applicant deletes the enquiry at a number of the own list,
    deleteEnquiry prints EnquiryDeleted and that enquiry is afterwards
    in neither the applicant's list nor the controller's, while every
    other enquiry is in the lists it was in. *)
Theorem deleteEnquiry_removes (ops : list EnquiryOp) (self : nat) (c : Z) (x : nat) :
  (1 <= c)%Z →
  enquiries (enquiry_run ops) self !! Z.to_nat (c - 1) = Some x →
  let E := enquiry_run ops in
  let E' := fst (deleteEnquiry E self (Some c)) in
  snd (deleteEnquiry E self (Some c)) = EnquiryDeleted ∧
  (x ∉ enquiries E' self) ∧ (x ∉ controller_inquiries E') ∧
  (∀ y, y ≠ x → (y ∈ controller_inquiries E' ↔ y ∈ controller_inquiries E)) ∧
  (∀ i y, y ≠ x → (y ∈ enquiries E' i ↔ y ∈ enquiries E i)) ∧
  inquiry_objects E' = inquiry_objects E.
Proof.
  intros Hc Hx E E'. subst E'.
  destruct (enquiry_run_ok ops) as (Hnd & Hlt & Hown). fold E in Hnd, Hlt, Hown, Hx.
  destruct (Hown self) as [Hnds Hs].
  apply lookup_lt_Some in Hx as Hlen.
  apply list_elem_of_lookup_2 in Hx as Hin. destruct (Hs x Hin) as [Hxc _].
  unfold deleteEnquiry.
  rewrite decide_False by (intros He; rewrite He in Hin; by apply elem_of_nil in Hin).
  rewrite decide_True by lia. rewrite Hx. simpl.
  unfold deleteInquiry. rewrite decide_True by done. simpl.
  rewrite decide_True by done. split_and!; try done; simpl.
  - rewrite elem_of_list_remove_first by done. tauto.
  - rewrite elem_of_list_remove_first by done. tauto.
  - intros y Hy. rewrite elem_of_list_remove_first by done. tauto.
  - intros i y Hy. case_decide as Hi; [subst i|done].
    rewrite elem_of_list_remove_first by done. tauto.
Qed.

(** A submits two enquiries and deletes the first. *)
Lemma deleteEnquiry_removes_witness :
  0%nat ∉ controller_inquiries
            (fst (deleteEnquiry
                    (enquiry_run [SubmitEnquiry 0 "When?"; SubmitEnquiry 0 "Where?"])
                    0 (Some 1%Z))).
Proof.
  refine (proj1 (proj2 (proj2
    (deleteEnquiry_removes [SubmitEnquiry 0 "When?"; SubmitEnquiry 0 "Where?"]
       0 1 0 _ _)))).
  - lia.
  - reflexivity.
Defined.

(** X13.  Whatever went before, an enquiry that is submitted and then deleted
    by its number, the last of the applicant's list, leaves the
    controller's list and every applicant's list as they were. *)
Theorem submit_then_delete (ops : list EnquiryOp) (self : nat) (msg : string) :
  let E := enquiry_run ops in
  let E1 := fst (submitEnquiry E self msg) in
  let E2 := fst (deleteEnquiry E1 self
                   (Some (Z.of_nat (length (enquiries E self)) + 1)%Z)) in
  snd (deleteEnquiry E1 self (Some (Z.of_nat (length (enquiries E self)) + 1)%Z))
    = EnquiryDeleted ∧
  controller_inquiries E2 = controller_inquiries E ∧
  (∀ i, enquiries E2 i = enquiries E i) ∧
  (∀ i, viewEnquiries E2 i = viewEnquiries E i).
Proof.
  intros E E1 E2.
  destruct (enquiry_run_ok ops) as (Hnd & Hlt & Hown). fold E in Hnd, Hlt, Hown.
  assert (Hfresh : length (inquiry_objects E) ∉ controller_inquiries E).
  { intros Hin. apply Hlt in Hin. lia. }
  assert (Hfresh' : length (inquiry_objects E) ∉ enquiries E self).
  { intros Hin. apply Hfresh. by apply (Hown self). }
  assert (Hlook : (enquiries E self ++ [length (inquiry_objects E)])%list
                    !! Z.to_nat (Z.of_nat (length (enquiries E self)) + 1 - 1)
                  = Some (length (inquiry_objects E))).
  { replace (Z.to_nat (Z.of_nat (length (enquiries E self)) + 1 - 1))
      with (length (enquiries E self)) by lia.
    by rewrite lookup_app_r, Nat.sub_diag. }
  subst E2 E1.
  unfold deleteEnquiry, submitEnquiry, createInquiry, set_enquiries, viewEnquiries.
  simpl. destruct (decide (self = self)) as [_|]; [|done].
  rewrite decide_False by (by destruct (enquiries E self)).
  rewrite length_app. simpl. rewrite decide_True by lia.
  rewrite Hlook. unfold deleteInquiry. simpl.
  rewrite decide_True by (rewrite elem_of_app, list_elem_of_singleton; by right).
  simpl. destruct (decide (self = self)) as [_|]; [|done].
  rewrite !list_remove_first_last by done.
  assert (Hlists : ∀ i, (if decide (i = self) then enquiries E self
                         else if decide (i = self)
                              then (enquiries E self ++ [length (inquiry_objects E)])%list
                              else enquiries E i) = enquiries E i).
  { intros i. case_decide; [by subst|done]. }
  split_and!; try done.
  intros i. rewrite Hlists. apply omap_ext_elem. intros x Hk.
  apply (Hown i) in Hk as [Hk _]. apply Hlt in Hk.
  by rewrite lookup_app_l.
Qed.

(** X14.  An answer given through replyInquiry is what the applicant's
    viewEnquiries shows under the enquiry, unless the answer is the
    empty string, which shows as no response; the lists of enquiries
    are as they were. *)
Theorem reply_is_shown (ops : list EnquiryOp) (i x : nat) (q : Inquiry) (r : string) :
  x ∈ enquiries (enquiry_run ops) i →
  inquiry_objects (enquiry_run ops) !! x = Some q →
  let E := enquiry_run ops in
  let E' := replyInquiry E x r in
  (message q, if decide (r = "") then None else Some r) ∈ viewEnquiries E' i ∧
  length (viewEnquiries E' i) = length (enquiries E i) ∧
  controller_inquiries E' = controller_inquiries E ∧
  (∀ j, enquiries E' j = enquiries E j).
Proof.
  intros Hx Hq E E'. subst E'.
  destruct (enquiry_run_ok ops) as (Hnd & Hlt & Hown). fold E in Hnd, Hlt, Hown, Hx, Hq.
  unfold replyInquiry. rewrite Hq. unfold viewEnquiries. simpl. split_and!; try done.
  - apply list_elem_of_omap. exists x. split; [done|].
    rewrite list_lookup_insert_eq by (by eapply lookup_lt_Some). simpl.
    do 2 f_equal. unfold truthy. destruct r; by case_decide.
  - generalize (λ y, proj2 (Hown i) y). generalize (enquiries E i). clear -Hq.
    induction l as [|y l IH]; intros Hl; [done|]. simpl.
    assert (Hy : is_Some (inquiry_objects E !! y)).
    { destruct (Hl y ltac:(left)) as [_ Ho].
      destruct (inquiry_objects E !! y); [by eexists|done]. }
    destruct Hy as [qy Hy].
    destruct (decide (x = y)) as [->|Hne].
    + rewrite list_lookup_insert_eq by (by eapply lookup_lt_Some). simpl.
      f_equal. apply IH. intros z Hz. apply Hl. by right.
    + rewrite list_lookup_insert_ne, Hy by done. simpl.
      f_equal. apply IH. intros z Hz. apply Hl. by right.
Qed.

Lemma reply_is_shown_witness :
  ("Where?", Some "Yishun")
    ∈ viewEnquiries
        (replyInquiry (enquiry_run [SubmitEnquiry 0 "When?"; SubmitEnquiry 0 "Where?"])
                      1 "Yishun") 0.
Proof.
  refine (proj1 (reply_is_shown [SubmitEnquiry 0 "When?"; SubmitEnquiry 0 "Where?"]
                   0 1 (mkInquiry 0 None "Where?" None) "Yishun" _ _)).
  - vm_compute. right. left.
  - reflexivity.
Defined.

(** ** The manager's queues *)

Lemma menu_select_Called (l : list nat) (c : option Z) (k : nat → Result)
    (w' : World) (m : Msg) :
  menu_select l c k = Called w' m →
  ∃ z sel, c = Some z ∧ (1 <= z <= Z.of_nat (length l))%Z ∧
           sel ∈ l ∧ l !! Z.to_nat (z - 1) = Some sel ∧ k sel = Returned w' m.
Proof.
  unfold menu_select. case_decide; [done|]. destruct c as [z|]; [|done].
  case_decide; [|done]. destruct (l !! Z.to_nat (z - 1)) as [sel|] eqn:Hsel; [|done].
  intros Hk. exists z, sel. split_and!; try done; try lia.
  - by eapply list_elem_of_lookup_2.
  - destruct (k sel); simpl in Hk; congruence.
Qed.

(** X15.  Choice 5 of the manager menu.  When it calls
    approveOrRejectApplication, the application is a Pending one of the
    controller's list for a project of the manager, so the method never
    answers NotManager or NotPending: the application becomes Successful
    (or the approval finds no unit left) when the answer typed is 1, and
    it becomes Unsuccessful for any other answer. *)
Theorem menu_approve_application_spec (w : World) (current_user : nat)
    (c : option Z) (d : string) (w' : World) (m : Msg) :
  menu_approve_application w current_user c d = Called w' m →
  ∃ a app p,
    a ∈ controller_applications w ∧ apps w !! a = Some app ∧
    applicationStatus app = "Pending" ∧
    projects w !! app_BTOProject app = Some p ∧ manager p = Some current_user ∧
    ((d = "1" ∧ m = Approved ∧ w' = store_status w a app "Successful") ∨
     (d = "1" ∧ m = NotEnoughUnits ∧ w' = w) ∨
     (d ≠ "1" ∧ m = Rejected ∧ w' = store_status w a app "Unsuccessful")).
Proof.
  intros Hc. apply menu_select_Called in Hc as (z & a & _ & _ & Hin & _ & Hk).
  apply list_elem_of_filter in Hin as [Hf Hin].
  destruct (apps w !! a) as [app|] eqn:Ha; [|done].
  apply andb_true_iff in Hf as [Hs Hp]. apply bool_decide_eq_true in Hs.
  destruct (projects w !! app_BTOProject app) as [p|] eqn:Hproj; [|done].
  apply bool_decide_eq_true in Hp.
  exists a, app, p. split_and!; try done.
  revert Hk. unfold approveOrRejectApplication. rewrite Ha, Hproj.
  rewrite decide_False by (intros ?; congruence).
  rewrite decide_False by (intros ?; congruence).
  case_bool_decide as Hd.
  - destruct (flatTypes p !! chosen_flat_type app); [|done].
    case_decide; intros [= <- <-]; auto.
  - intros [= <- <-]. auto.
Qed.

(** The manager answers "y" for A's Pending application, which is
    thereby rejected. *)
Lemma menu_approve_application_spec_witness :
  menu_approve_application (scene handling [1%nat] 1 [application_A "Pending" false])
                           0 (Some 1%Z) "y"
    = Called (scene handling [1%nat] 1 [application_A "Unsuccessful" false]) Rejected ∧
  ∃ a app, apps (scene handling [1%nat] 1 [application_A "Pending" false]) !! a = Some app ∧
           applicationStatus app = "Pending".
Proof.
  assert (H : menu_approve_application
                (scene handling [1%nat] 1 [application_A "Pending" false]) 0 (Some 1%Z) "y"
              = Called (scene handling [1%nat] 1 [application_A "Unsuccessful" false])
                       Rejected) by (vm_compute; reflexivity).
  split; [exact H|].
  destruct (menu_approve_application_spec _ _ _ _ _ _ H)
    as (a & app & p & _ & Ha & Hs & _).
  by exists a, app.
Defined.

(** X16.  Choice 6 of the manager menu.  When it calls
    approveOrRejectWithdrawal, the application is one of the
    controller's list with the withdrawal flag set, for a project of the
    manager, so the method never answers NotManager or
    NoWithdrawalRequested.  With the answer 1 a Pending or Successful
    application becomes Unsuccessful and one in another status is left
    with its flag set (CannotBeWithdrawn); any other answer clears the
    flag. *)
Theorem menu_approve_withdrawal_spec (w : World) (current_user : nat)
    (c : option Z) (d : string) (w' : World) (m : Msg) :
  menu_approve_withdrawal w current_user c d = Called w' m →
  ∃ a app p,
    a ∈ controller_applications w ∧ apps w !! a = Some app ∧
    requested_withdrawal app = true ∧
    projects w !! app_BTOProject app = Some p ∧ manager p = Some current_user ∧
    ((d = "1" ∧ m = WithdrawalApproved ∧
      (applicationStatus app = "Pending" ∨ applicationStatus app = "Successful") ∧
      status_of w' a = Some "Unsuccessful" ∧ flag_of w' a = Some false) ∨
     (d = "1" ∧ m = CannotBeWithdrawn ∧ w' = w ∧
      applicationStatus app ≠ "Pending" ∧ applicationStatus app ≠ "Successful") ∨
     (d ≠ "1" ∧ m = WithdrawalRejected ∧ w' = store_flag w a app false)).
Proof.
  intros Hc. apply menu_select_Called in Hc as (z & a & _ & _ & Hin & _ & Hk).
  apply list_elem_of_filter in Hin as [Hf Hin].
  destruct (apps w !! a) as [app|] eqn:Ha; [|done].
  apply andb_true_iff in Hf as [Hs Hp].
  destruct (projects w !! app_BTOProject app) as [p|] eqn:Hproj; [|done].
  apply bool_decide_eq_true in Hp.
  exists a, app, p. split_and!; try done.
  revert Hk. unfold approveOrRejectWithdrawal. rewrite Ha, Hproj.
  rewrite decide_False by (intros ?; congruence).
  rewrite Hs. simpl. case_bool_decide as Hd.
  - case_decide as Hst; intros [= <- <-].
    + left. apply elem_of_pair in Hst. split_and!; try done.
      * unfold status_of. simpl.
        by rewrite list_lookup_insert_eq by (by eapply lookup_lt_Some).
      * unfold flag_of. simpl.
        by rewrite list_lookup_insert_eq by (by eapply lookup_lt_Some).
    + right. left. rewrite elem_of_pair in Hst. split_and!; try done; tauto.
  - intros [= <- <-]. auto.
Qed.

Lemma menu_approve_withdrawal_spec_witness :
  menu_approve_withdrawal (scene handling [1%nat] 1 [application_A "Successful" true])
                          0 (Some 1%Z) "1"
    = Called (scene handling [1%nat] 1 [application_A "Unsuccessful" false])
             WithdrawalApproved ∧
  ∃ a app, apps (scene handling [1%nat] 1 [application_A "Successful" true]) !! a
             = Some app ∧
           requested_withdrawal app = true.
Proof.
  assert (H : menu_approve_withdrawal
                (scene handling [1%nat] 1 [application_A "Successful" true]) 0 (Some 1%Z) "1"
              = Called (scene handling [1%nat] 1 [application_A "Unsuccessful" false])
                       WithdrawalApproved) by (vm_compute; reflexivity).
  split; [exact H|].
  destruct (menu_approve_withdrawal_spec _ _ _ _ _ _ H)
    as (a & app & p & _ & Ha & Hs & _).
  by exists a, app.
Defined.

(** X17.  Choice 7 of the manager menu.  When it calls
    approveOrRejectHDBOfficerRegistration, the officer's registration is
    Pending and for a project of the manager, so the method never
    answers NoRegistration, NotManager or RegistrationNotPending: with
    the answer 1 the officer is approved, unless the project's list has
    reached the slot capacity, and any other answer rejects the
    registration. *)
Theorem menu_approve_officer_spec (w : World) (current_user : nat)
    (c : option Z) (d : string) (w' : World) (m : Msg) :
  menu_approve_officer w current_user c d = Called w' m →
  ∃ off u o rp p,
    users w !! off = Some u ∧ officer u = Some o ∧
    registration_status o = Some "Pending" ∧ registered_project o = Some rp ∧
    projects w !! rp = Some p ∧ manager p = Some current_user ∧
    ((d = "1" ∧ m = OfficerApproved ∧
      (Z.of_nat (length (officers p)) < officerSlot p)%Z ∧
      w' = world_after_officer_approval w off rp u o p) ∨
     (d = "1" ∧ m = NoOfficerSlots ∧ w' = w ∧
      (Z.of_nat (length (officers p)) >= officerSlot p)%Z) ∨
     (d ≠ "1" ∧ m = OfficerRejected ∧
      (officer <$> users w' !! off)
        = Some (Some (mkOfficerPart (handling_project o) (Some "Rejected") (Some rp))) ∧
      projects w' = projects w)).
Proof.
  intros Hc. apply menu_select_Called in Hc as (z & off & _ & _ & Hin & _ & Hk).
  apply list_elem_of_filter in Hin as [Hf Hin].
  destruct (users w !! off) as [u|] eqn:Hu; [|done].
  destruct (officer u) as [o|] eqn:Ho; [|done].
  destruct (registered_project o) as [rp|] eqn:Hrp; [|done].
  destruct (projects w !! rp) as [p|] eqn:Hp; [|done].
  apply andb_true_iff in Hf as [Hm Hs].
  apply bool_decide_eq_true in Hm. apply bool_decide_eq_true in Hs.
  exists off, u, o, rp, p. split_and!; try done.
  revert Hk. unfold approveOrRejectHDBOfficerRegistration. rewrite Hu, Ho, Hrp, Hp.
  rewrite decide_False by (intros ?; congruence).
  rewrite decide_False by (intros ?; congruence).
  case_bool_decide as Hd.
  - case_decide as Hfull; intros [= <- <-].
    + right. left. done.
    + left. split_and!; try done; [lia|].
      unfold world_after_officer_approval. by rewrite Hrp.
  - intros [= <- <-]. right. right. split_and!; try done.
    unfold with_users. simpl.
    by rewrite list_lookup_insert_eq by (by eapply lookup_lt_Some).
Qed.

(** The third scenario of the specification through the menu. *)
Lemma menu_approve_officer_spec_witness :
  menu_approve_officer (scene registered [] 1 []) 0 (Some 1%Z) "1"
    = Called (scene handling [1%nat] 1 []) OfficerApproved ∧
  ∃ off u o, users (scene registered [] 1 []) !! off = Some u ∧ officer u = Some o ∧
             registration_status o = Some "Pending".
Proof.
  assert (H : menu_approve_officer (scene registered [] 1 []) 0 (Some 1%Z) "1"
              = Called (scene handling [1%nat] 1 []) OfficerApproved)
    by (vm_compute; reflexivity).
  split; [exact H|].
  destruct (menu_approve_officer_spec _ _ _ _ _ _ H)
    as (off & u & o & rp & p & Hu & Ho & Hs & _).
  by exists off, u, o.
Defined.

(** ** The officer's update of the flat availability *)

(** X18.  Choice 10 of the officer menu, in a world the program reaches.
    When it gets as far as calling updateFlatAvailability, the project
    is the one the officer handles, whose officer list names the
    officer, and the flat type is 2-Room or 3-Room; the method never
    answers NotHandling, and what changes is that project alone, by
    reduceUnits. *)
Theorem menu_update_flat_availability_spec (w : World) (current_user : nat)
    (ft_input : string) (num : option Z) (r : Result)
    (u : Applicant) (o : OfficerPart) :
  reachable w →
  users w !! current_user = Some u → officer u = Some o →
  menu_update_flat_availability w current_user ft_input num = UpdateCalled r →
  ∃ hp ft nb p,
    handling_project o = Some hp ∧ num = Some nb ∧
    convert_flat_input ft_input = Some ft ∧ (ft = "2-Room" ∨ ft = "3-Room") ∧
    projects w !! hp = Some p ∧ current_user ∈ officers p ∧
    r = Returned (with_projects w (<[hp := reduceUnits p ft nb]> (projects w)))
                 AvailabilityUpdated.
Proof.
  intros Hw Hu Ho. unfold menu_update_flat_availability. rewrite Hu, Ho.
  destruct (handling_project o) as [hp|] eqn:Hh; [|done].
  destruct (convert_flat_input ft_input) as [ft|] eqn:Hft; [|done].
  destruct num as [nb|]; [|done]. intros [= <-].
  destruct (reachable_handling_is_approved w Hw _ _ _ _ Hu Ho Hh) as (_ & p & Hp & Hin).
  exists hp, ft, nb, p. split_and!; try done.
  - revert Hft. unfold convert_flat_input. repeat case_decide; intros [=]; auto.
  - unfold updateFlatAvailability. rewrite Hu, Hp, Ho.
    by rewrite decide_False by (intros ?; congruence).
Qed.

(** Daniel, who handles Acacia Breeze, types 3 and 2. *)
Lemma menu_update_flat_availability_spec_witness :
  ∃ hp ft nb, handling_project (mkOfficerPart (Some 0%nat) (Some "Approved") None) = Some hp ∧
              Some 2%Z = Some nb ∧ convert_flat_input "3" = Some ft.
Proof.
  destruct (menu_update_flat_availability_spec (run session_start session) 1 "3" (Some 2%Z)
              (updateFlatAvailability (run session_start session) 1 0 "3-Room" 2)
              (mkApplicant "T2109876H" 36 "Single" "Daniel" []
                 (Some (mkOfficerPart (Some 0%nat) (Some "Approved") None)))
              (mkOfficerPart (Some 0%nat) (Some "Approved") None)
              session_reachable ltac:(vm_compute; reflexivity) eq_refl
              ltac:(vm_compute; reflexivity))
    as (hp & ft & nb & p & H1 & H2 & H3 & _).
  by exists hp, ft, nb.
Defined.

(** ** Editing a project *)

(** X19.  editBTOProject on a project of the store.  A manager who is not the
    project's manager changes nothing (NotManager).  The project's
    manager replaces the name, the neighbourhood and the dictionary of
    flat types by the arguments that are given and not empty; an absent
    argument, an empty string or an empty dictionary leaves the
    attribute as it was, ProjectUpdated is printed all the same, and
    identifier, manager, officers, slot capacity and visibility are
    never touched. *)
Theorem editBTOProject_spec (w : World) (self project : nat)
    (new_name new_neighborhood : option string)
    (new_flat_types : option (gmap string FlatInfo)) (p : BTOProject) :
  projects w !! project = Some p →
  let r := editBTOProject w self project new_name new_neighborhood new_flat_types in
  (manager p ≠ Some self → r = Returned w NotManager) ∧
  (manager p = Some self →
     ∃ p', r = Returned (with_projects w (<[project := p']> (projects w))) ProjectUpdated ∧
       (∀ s, new_name = Some s → s ≠ "" → projectName p' = s) ∧
       (new_name = None ∨ new_name = Some "" → projectName p' = projectName p) ∧
       (∀ s, new_neighborhood = Some s → s ≠ "" → neighborhood p' = s) ∧
       (new_neighborhood = None ∨ new_neighborhood = Some "" →
          neighborhood p' = neighborhood p) ∧
       (∀ ft, new_flat_types = Some ft → ft ≠ ∅ → flatTypes p' = ft) ∧
       (new_flat_types = None ∨ new_flat_types = Some ∅ → flatTypes p' = flatTypes p) ∧
       projectID p' = projectID p ∧ manager p' = manager p ∧
       officers p' = officers p ∧ officerSlot p' = officerSlot p ∧
       visibility p' = visibility p).
Proof.
  intros Hp r. subst r. unfold editBTOProject. rewrite Hp. split.
  - intros Hm. by rewrite decide_True.
  - intros Hm. rewrite decide_False by (intros ?; congruence).
    eexists. split; [reflexivity|].
    assert (Ht : ∀ o : option string,
              (∀ s, o = Some s → s ≠ "" → truthy o = Some s) ∧
              (o = None ∨ o = Some "" → truthy o = None)).
    { intros [[|a s]|]; split; try done.
      - by intros s [= <-].
      - by intros [|[=]]. }
    destruct (Ht new_name) as [Hn1 Hn2], (Ht new_neighborhood) as [Hb1 Hb2].
    split_and!.
    + intros s Hs Hne. rewrite (Hn1 s Hs Hne).
      destruct (truthy new_neighborhood), new_flat_types as [ft|];
        try case_decide; done.
    + intros Hs. rewrite (Hn2 Hs).
      destruct (truthy new_neighborhood), new_flat_types as [ft|];
        try case_decide; done.
    + intros s Hs Hne. rewrite (Hb1 s Hs Hne).
      destruct (truthy new_name), new_flat_types as [ft|]; try case_decide; done.
    + intros Hs. rewrite (Hb2 Hs).
      destruct (truthy new_name), new_flat_types as [ft|]; try case_decide; done.
    + intros ft -> Hne. rewrite decide_False by done.
      by destruct (truthy new_name), (truthy new_neighborhood).
    + intros [->| ->]; [|rewrite decide_True by done];
        by destruct (truthy new_name), (truthy new_neighborhood).
    + destruct (truthy new_name), (truthy new_neighborhood), new_flat_types as [ft|];
        try case_decide; done.
    + destruct (truthy new_name), (truthy new_neighborhood), new_flat_types as [ft|];
        try case_decide; done.
    + destruct (truthy new_name), (truthy new_neighborhood), new_flat_types as [ft|];
        try case_decide; done.
    + destruct (truthy new_name), (truthy new_neighborhood), new_flat_types as [ft|];
        try case_decide; done.
    + destruct (truthy new_name), (truthy new_neighborhood), new_flat_types as [ft|];
        try case_decide; done.
Qed.

(** The manager of Acacia gives a new name and an empty neighbourhood. *)
Lemma editBTOProject_spec_witness :
  ∃ p', editBTOProject (scene handling [1%nat] 1 []) 0 0 (Some "Banyan") (Some "") None
          = Returned (with_projects (scene handling [1%nat] 1 [])
                        (<[0%nat := p']> (projects (scene handling [1%nat] 1 []))))
                     ProjectUpdated ∧
        projectName p' = "Banyan" ∧ neighborhood p' = "Yishun".
Proof.
  destruct (proj2 (editBTOProject_spec (scene handling [1%nat] 1 []) 0 0
                     (Some "Banyan") (Some "") None (acacia 1 [1%nat]) eq_refl) eq_refl)
    as (p' & Hr & Hn & _ & _ & Hb & _).
  exists p'. split_and!; [exact Hr|by apply Hn|].
  rewrite Hb; [done|by right].
Defined.

(** ** What is submitted is queued *)

(** X20.  An application that applyForProject has just created is in the list
    choice 5 of the manager menu shows to the manager of the project. *)
Theorem submitted_application_is_queued (w w1 : World) (self project : nat)
    (flat_type : string) (p : BTOProject) (mgr : nat) :
  applyForProject w self project flat_type = Returned w1 Submitted →
  projects w !! project = Some p → manager p = Some mgr →
  length (apps w) ∈ pending_apps w1 mgr ∧
  (∀ other, other ≠ mgr → length (apps w) ∉ pending_apps w1 other).
Proof.
  intros Hr Hp Hm.
  destruct (applyForProject_Submitted w w1 self project flat_type Hr)
    as (u & p' & info & Hu & Hp' & _ & _ & ->).
  assert (Hnew : apps (world_after_apply w self project flat_type u) !! length (apps w)
                 = Some (mkApplication self project "Pending" flat_type false)).
  { unfold world_after_apply. simpl. by rewrite lookup_app_r, Nat.sub_diag. }
  unfold pending_apps. split.
  - apply list_elem_of_filter. split.
    + rewrite Hnew. simpl. rewrite Hp. by rewrite bool_decide_eq_true_2.
    + simpl. rewrite elem_of_app, list_elem_of_singleton. by right.
  - intros other Hne [Hf _]%list_elem_of_filter. rewrite Hnew in Hf. simpl in Hf.
    rewrite Hp in Hf. apply bool_decide_eq_true in Hf. congruence.
Qed.

Lemma submitted_application_is_queued_witness :
  0%nat ∈ pending_apps (scene handling [1%nat] 1 [application_A "Pending" false]) 0.
Proof.
  refine (proj1 (submitted_application_is_queued (scene handling [1%nat] 1 [])
                   (scene handling [1%nat] 1 [application_A "Pending" false])
                   0 0 "2-Room" (acacia 1 [1%nat]) 0 _ eq_refl eq_refl)).
  vm_compute. reflexivity.
Defined.

(** ** The projects the loader makes *)

Lemma attach_officer_static (w : World) (proj off : nat) :
  managers (attach_officer w proj off) = managers w ∧
  project_counter (attach_officer w proj off) = project_counter w ∧
  ∀ i, static <$> projects (attach_officer w proj off) !! i = static <$> projects w !! i.
Proof.
  unfold attach_officer.
  destruct (users w !! off); [|done].
  destruct (projects w !! proj) as [p|] eqn:Hp; [|done]. simpl.
  split_and!; try done. intros i. destruct (decide (proj = i)) as [->|Hne].
  - rewrite list_lookup_insert_eq by (by eapply lookup_lt_Some). by rewrite Hp.
  - by rewrite list_lookup_insert_ne.
Qed.

Lemma load_project_row_static (officer_list : list nat) (w : World) (row : ProjectRow) :
  managers (load_project_row officer_list w row) = managers w ∧
  project_counter (load_project_row officer_list w row) = (project_counter w + 1)%Z ∧
  ∀ i, static <$> projects (load_project_row officer_list w row) !! i
       = static <$> (projects w ++ [project_of_row (managers w) (project_counter w) row])%list
                      !! i.
Proof.
  unfold load_project_row. case_decide; [done|].
  apply (foldl_invariant (λ w', managers w' = managers w ∧
           project_counter w' = (project_counter w + 1)%Z ∧
           ∀ i, static <$> projects w' !! i
                = static <$> (projects w ++
                    [project_of_row (managers w) (project_counter w) row])%list !! i));
    [done|].
  intros w2 oname Hw2. apply foldl_invariant; [done|].
  intros w3 off (Hm & Hc & Hs). destruct (users w3 !! off); [|done].
  case_decide; [|done].
  destruct (attach_officer_static w3 (length (projects w)) off) as (Hm' & Hc' & Hs').
  split_and!; [congruence|congruence|]. intros i. by rewrite Hs', Hs.
Qed.

Lemma load_projects_static (officer_list : list nat) (rows : list ProjectRow) (w : World) :
  managers (load_projects officer_list w rows) = managers w ∧
  length (projects (load_projects officer_list w rows))
    = (length (projects w) + length rows)%nat ∧
  ∀ k row, rows !! k = Some row →
    static <$> projects (load_projects officer_list w rows) !! (length (projects w) + k)%nat
    = Some (static (project_of_row (managers w) (project_counter w + Z.of_nat k) row)).
Proof.
  revert w. induction rows as [|r rows IH]; intros w.
  - simpl. split_and!; [done|lia|]. intros k row Hk. by rewrite lookup_nil in Hk.
  - change (load_projects officer_list w (r :: rows))
      with (load_projects officer_list (load_project_row officer_list w r) rows).
    destruct (load_project_row_static officer_list w r) as (Hm & Hc & Hs).
    destruct (IH (load_project_row officer_list w r)) as (Hm' & Hlen & Hrows).
    assert (Hl : length (projects (load_project_row officer_list w r))
                 = S (length (projects w))).
    { apply Nat.le_antisymm.
      - destruct (decide (length (projects (load_project_row officer_list w r))
                          ≤ S (length (projects w)))%nat) as [|Hgt]; [done|].
        assert (Hsome : is_Some (projects (load_project_row officer_list w r)
                                   !! S (length (projects w))))
          by (apply lookup_lt_is_Some_2; lia).
        destruct Hsome as [q Hq]. specialize (Hs (S (length (projects w)))).
        rewrite Hq, lookup_ge_None_2 in Hs; [done|]. rewrite length_app. simpl. lia.
      - specialize (Hs (length (projects w))).
        rewrite lookup_app_r, Nat.sub_diag in Hs by done. simpl in Hs.
        destruct (projects (load_project_row officer_list w r) !! length (projects w))
          eqn:Hq; [|done].
        apply lookup_lt_Some in Hq. lia. }
    split_and!.
    + congruence.
    + rewrite Hlen, Hl. simpl. lia.
    + intros k row Hk. destruct k as [|k].
      * injection Hk as ->. rewrite Nat.add_0_r, Z.add_0_r.
        clear Hrows.
        assert (Hkeep : ∀ rows' w' i q,
                  static <$> projects w' !! i = Some q →
                  static <$> projects (load_projects officer_list w' rows') !! i = Some q).
        { clear. induction rows' as [|r' rows' IH']; intros w' i q Hq; [done|].
          change (load_projects officer_list w' (r' :: rows'))
            with (load_projects officer_list (load_project_row officer_list w' r') rows').
          apply IH'.
          destruct (load_project_row_static officer_list w' r') as (_ & _ & Hs').
          rewrite Hs'. destruct (projects w' !! i) as [p'|] eqn:Hp'; [|done].
          by rewrite (lookup_app_l_Some _ _ _ _ Hp'). }
        apply Hkeep. rewrite Hs. by rewrite lookup_app_r, Nat.sub_diag.
      * simpl in Hk. specialize (Hrows k row Hk).
        rewrite Hl, Hm, Hc in Hrows.
        replace (length (projects w) + S k)%nat with (S (length (projects w)) + k)%nat
          by lia.
        rewrite Hrows. do 3 f_equal. lia.
Qed.

Lemma lookup_map {A B} (f : A → B) (l : list A) (i : nat) :
  map f l !! i = f <$> l !! i.
Proof. revert i. induction l as [|x l IH]; intros [|i]; simpl; auto. Qed.

(** X21.  Row number k of the project file (counting from 0) becomes the
    project at position k of the store, with identifier k + 1, the
    row's name, neighbourhood and slot capacity, visible, and managed by
    the first manager of the manager file whose name or NRIC is the
    row's Manager (by nobody if there is none).  Its dictionary has the
    row's two flat types, the second taking the place of the first when
    both carry the same label. *)
Theorem loaded_projects_follow_rows (arows mrows orows : list UserRow)
    (prows : list ProjectRow) (k : nat) (row : ProjectRow) :
  prows !! k = Some row →
  length (projects (main_init arows mrows orows prows)) = length prows ∧
  ∃ p, projects (main_init arows mrows orows prows) !! k = Some p ∧
       projectID p = (Z.of_nat k + 1)%Z ∧
       projectName p = row_Project_Name row ∧
       neighborhood p = row_Neighborhood row ∧
       officerSlot p = row_Officer_Slot row ∧
       visibility p = true ∧
       manager p = manager_of_row (load_managers mrows) row ∧
       (∀ m, manager p = Some m →
          ∃ r, mrows !! m = Some r ∧
               (row_Name r = row_Manager row ∨ row_NRIC r = row_Manager row)) ∧
       flatTypes p !! row_Type_2 row
         = Some (mkFlatInfo (row_units_2 row) (row_price_2 row)) ∧
       (row_Type_1 row ≠ row_Type_2 row →
          flatTypes p !! row_Type_1 row
            = Some (mkFlatInfo (row_units_1 row) (row_price_1 row))) ∧
       (∀ ft, ft ≠ row_Type_1 row → ft ≠ row_Type_2 row → flatTypes p !! ft = None).
Proof.
  intros Hk.
  destruct (main_init_stores arows mrows orows prows) as (w1 & Hw1 & _ & Hp & _).
  rewrite Hp.
  destruct (load_projects_static
              (seq (length (load_applicants arows)) (length (load_officers orows)))
              prows
              (mkWorld (load_applicants arows ++ load_officers orows)
                       (load_managers mrows) [] [] [] [] 1))
    as (_ & Hlen & Hrows).
  rewrite <- Hw1 in Hlen, Hrows. simpl in Hlen, Hrows.
  split; [done|]. specialize (Hrows k row Hk).
  destruct (projects w1 !! k) as [p|]; [|done].
  injection Hrows as Hid Hname Hnb Hft Hmgr Hvis Hslot.
  exists p. split_and!; try done.
  - lia.
  - intros m Hm. rewrite Hmgr in Hm. unfold manager_of_row in Hm.
    destruct (list_find _ _) as [[m' mo]|] eqn:Hfind; [|done]. simpl in Hm.
    injection Hm as ->.
    apply list_find_Some in Hfind as (Hmo & HP & _).
    unfold load_managers in Hmo. rewrite lookup_map in Hmo.
    destruct (mrows !! m) as [r|]; [|done]. injection Hmo as <-.
    exists r. split; [done|]. simpl in HP. tauto.
  - rewrite Hft. apply lookup_insert_eq.
  - intros Hne. rewrite Hft. rewrite lookup_insert_ne by done. apply lookup_insert_eq.
  - intros ft H1 H2. rewrite Hft. by rewrite !lookup_insert_ne, lookup_empty.
Qed.

Lemma loaded_projects_follow_rows_witness :
  length (projects session_start) = 1%nat.
Proof.
  exact (proj1 (loaded_projects_follow_rows
                  [mkUserRow "A" "S1234567A" 36 "Single"]
                  [mkUserRow "Jessica" "S5678901G" 26 "Married"] two_officers
                  [acacia_row] 0 acacia_row eq_refl)).
Defined.

(** ** An assignment is for good *)

Lemma step_handling_kept (w : World) (op : Op) (i : nat) (u : Applicant)
    (o : OfficerPart) (p : nat) :
  handling_is_approved w →
  users w !! i = Some u → officer u = Some o → handling_project o = Some p →
  ∃ u' o', users (step w op) !! i = Some u' ∧ officer u' = Some o' ∧
           handling_project o' = Some p.
Proof.
  intros Hw Hu Ho Hh. destruct (Hw i u o p Hu Ho Hh) as [Hst _].
  assert (Hsame : ∃ u' o', users w !! i = Some u' ∧ officer u' = Some o' ∧
                           handling_project o' = Some p) by (by exists u, o).
  destruct op; unfold_op; case_op; try exact Hsame.
  all: match goal with
       | |- context [<[?j := _]> (users _) !! ?k] => lookup_store j k; [|exact Hsame]
       end.
  all: simplify_eq/=.
  all: try (eexists _, _; split_and!; [reflexivity|done|done]).
  all: try match goal with
       | H : ¬ is_Some (handling_project ?o), H' : handling_project ?o = Some _ |- _ =>
           destruct H; rewrite H'; by eexists
       end.
  all: congruence.
Qed.

(** X9.  In every world the program reaches, an officer who handles a
    project still handles that same project after any sequence of
    operations: nothing takes an officer off a project or moves the
    officer to another. *)
Theorem handling_is_for_good (w : World) (ops : list Op) (i : nat) (u : Applicant)
    (o : OfficerPart) (p : nat) :
  reachable w →
  users w !! i = Some u → officer u = Some o → handling_project o = Some p →
  ∃ u' o' pr, users (run w ops) !! i = Some u' ∧ officer u' = Some o' ∧
              handling_project o' = Some p ∧
              registration_status o' = Some "Approved" ∧
              projects (run w ops) !! p = Some pr ∧ i ∈ officers pr.
Proof.
  intros Hw Hu Ho Hh.
  assert (Hkept : ∃ u' o', users (run w ops) !! i = Some u' ∧ officer u' = Some o' ∧
                           handling_project o' = Some p).
  { apply reachable_handling_is_approved in Hw.
    revert w u o Hw Hu Ho Hh. induction ops as [|op ops IH]; intros w u o Hw Hu Ho Hh.
    - by exists u, o.
    - rewrite run_cons.
      destruct (step_handling_kept w op i u o p Hw Hu Ho Hh) as (u1 & o1 & Hu1 & Ho1 & Hh1).
      eapply IH; eauto using step_handling_is_approved. }
  destruct Hkept as (u' & o' & Hu' & Ho' & Hh').
  assert (Hrun : reachable (run w ops)).
  { destruct Hw as (arows & mrows & orows & prows & ops0 & ->).
    exists arows, mrows, orows, prows, (ops0 ++ ops)%list.
    unfold run. by rewrite fold_left_app. }
  destruct (reachable_handling_is_approved _ Hrun i u' o' p Hu' Ho' Hh')
    as (Hst & pr & Hpr & Hin).
  by exists u', o', pr.
Qed.

(** Daniel handles Acacia Breeze from the start; he registers for the
    second project and the manager decides on it. *)
Lemma handling_is_for_good_witness :
  ∃ u' o' pr,
    users (run (run session_start session)
               [RegisterToProject 1 1; ApproveOrRejectHDBOfficerRegistration 0 1 true])
      !! 1%nat = Some u' ∧
    officer u' = Some o' ∧ handling_project o' = Some 0%nat ∧
    registration_status o' = Some "Approved" ∧
    projects (run (run session_start session)
               [RegisterToProject 1 1; ApproveOrRejectHDBOfficerRegistration 0 1 true])
      !! 0%nat = Some pr ∧
    1%nat ∈ officers pr.
Proof.
  apply (handling_is_for_good (run session_start session)
           [RegisterToProject 1 1; ApproveOrRejectHDBOfficerRegistration 0 1 true] 1
           (mkApplicant "T2109876H" 36 "Single" "Daniel" []
              (Some (mkOfficerPart (Some 0%nat) (Some "Approved") None)))
           (mkOfficerPart (Some 0%nat) (Some "Approved") None) 0
           session_reachable ltac:(vm_compute; reflexivity) eq_refl eq_refl).
Defined.
